(** * ScoutIQ: signal derivation and heuristic scoring

    A shallow embedding of the Python sources

    - [backend/signal_processor.py]  (valuation band, zone-code flood risk),
    - [backend/ai_analyzer.py]       (rule-based scorer, narrative, batch),
    - [backend/utils/signals.py]     (per-record signals, batch with fallback),
    - [backend/ai_scoutgpt.py]       (payload shaping for the remote oracle),

    followed by the properties of the specification, stated on that embedding.

    Python dictionaries are finite maps from strings to scalar values,
    Python floats are IEEE binary64 numbers in the executable model of the
    standard library, and a Python exception is an explicit [Raise] result. *)

From Stdlib Require Import ZArith Lia Bool String Ascii List.
From Stdlib Require Import Floats.SpecFloat.
From stdpp Require Import gmap strings list fin_maps pretty.

Open Scope Z_scope.

(* ===================================================================== *)
(** * Binary64 floating point *)
(* ===================================================================== *)

(** Python's [float] is IEEE 754 binary64.  [spec_float] with precision 53
    and maximal exponent 1024 gives its values and its correctly rounded
    operations (round to nearest, ties to even) as plain functions. *)
Module F64.

Definition prec : Z := 53.
Definition emax : Z := 1024.

Definition add : spec_float -> spec_float -> spec_float := SFadd prec emax.
Definition sub : spec_float -> spec_float -> spec_float := SFsub prec emax.
Definition mul : spec_float -> spec_float -> spec_float := SFmul prec emax.
Definition div : spec_float -> spec_float -> spec_float := SFdiv prec emax.
Definition sqrt : spec_float -> spec_float := SFsqrt prec emax.

Definition ltb : spec_float -> spec_float -> bool := SFltb.
Definition leb : spec_float -> spec_float -> bool := SFleb.
Definition eqb : spec_float -> spec_float -> bool := SFeqb.
Definition gtb (x y : spec_float) : bool := ltb y x.
Definition geb (x y : spec_float) : bool := leb y x.

(** The float nearest to the integer [n]; an infinity when [n] is out of
    range. *)
Definition of_Z (n : Z) : spec_float := binary_normalize prec emax n 0 false.

(** The float nearest to the fraction [n / d].  A decimal literal of the
    source such as [0.005] is the float nearest to 5/1000, and [a / b] on
    two Python integers is the float nearest to the quotient. *)
Definition of_ratio (n : Z) (d : positive) : spec_float :=
  match n with
  | Z0 => S754_zero false
  | Zpos p => div (S754_finite false p 0) (S754_finite false d 0)
  | Zneg p => div (S754_finite true p 0) (S754_finite false d 0)
  end.

Definition is_nan (x : spec_float) : bool :=
  match x with S754_nan => true | _ => false end.

Definition is_zero (x : spec_float) : bool :=
  match x with S754_zero _ => true | _ => false end.

(** [n / d] rounded to the nearest integer, ties to the even one
    ([0 <= n], [0 < d]). *)
Definition round_half_even (n d : Z) : Z :=
  let q := n / d in
  match (2 * (n mod d) ?= d) with
  | Lt => q
  | Gt => q + 1
  | Eq => if Z.even q then q else q + 1
  end.

(** Truncation towards zero, the integer part that [int(x)] keeps. *)
Definition trunc (x : spec_float) : option Z :=
  match x with
  | S754_zero _ => Some 0
  | S754_finite s m e =>
      let a := if 0 <=? e then Zpos m * 2 ^ e else Zpos m / 2 ^ (- e) in
      Some (if s then - a else a)
  | _ => None
  end.

(** [round(x, 2)]: the exact value of [x] is rounded to two decimals,
    ties to even, and the float nearest to that decimal is returned.
    An [x] without fractional bits, an infinity and a NaN are returned
    as they are. *)
Definition round2 (x : spec_float) : spec_float :=
  match x with
  | S754_finite s m e =>
      if 0 <=? e then x
      else
        let k := round_half_even (Zpos m * 100) (2 ^ (- e)) in
        match k with
        | Z0 => S754_zero s
        | _ => of_ratio (if s then - k else k) 100
        end
  | _ => x
  end.

End F64.

Open Scope string_scope.
Open Scope Z_scope.

(* ===================================================================== *)
(** * Python values, exceptions and builtins *)
(* ===================================================================== *)

(** The scalar values a property record holds. *)
Inductive pyval : Type :=
| PNone
| PBool (b : bool)
| PInt (n : Z)
| PFloat (x : spec_float)
| PStr (s : string).

(** A record ([Dict[str, Any]], a row of a data frame). *)
Abbreviation record := (gmap string pyval).

Inductive exn : Type :=
| TypeError
| ValueError
| OverflowError
| AttributeError
| ZeroDivisionError.

(** The outcome of a Python call: a value, or a raised exception. *)
Inductive res (A : Type) : Type :=
| Ok (a : A)
| Raise (e : exn).
Arguments Ok {A} a.
Arguments Raise {A} e.

#[global] Instance res_ret : MRet res := fun _ a => Ok a.
#[global] Instance res_bind : MBind res := fun _ _ f m =>
match m with
| Ok a => f a
| Raise e => Raise e
end.

Definition is_ok {A} (m : res A) : bool :=
match m with Ok _ => true | Raise _ => false end.

(** The builtins and library calls the sources rely on whose result is a
    matter of the Python runtime, not of this repository. *)
Class PyRuntime : Type := {
  (** [float(s)] on a string; [None] stands for [ValueError] *)
  float_of_string : string -> option spec_float;
  (** [int(s)] on a string; [None] stands for [ValueError] *)
  int_of_string : string -> option Z;
  (** [repr] of a float, as [str(x)] and [f"{x}"] print it *)
  repr_float : spec_float -> string;
  (** [f"{x:,.0f}"] *)
  format_comma_0f : spec_float -> string;
  (** [f"{x:.0f}"] *)
  format_0f : spec_float -> string;
  (** [s.upper()], [s.lower()], [s.strip()] *)
  str_upper : string -> string;
  str_lower : string -> string;
  str_strip : string -> string;
  (** [x ** y] on floats; [None] stands for [OverflowError] *)
  float_pow : spec_float -> spec_float -> option spec_float;
  (** [datetime.now().year] *)
  current_year : Z;
  (** [(datetime.now() - pd.to_datetime(v)).days]; [None] when the
      conversion or the subtraction raises *)
  days_since : pyval -> option Z
}.

(** Truth value of a scalar, as [bool(x)], [if x], [x or y] see it. *)
Definition truthy (v : pyval) : bool :=
match v with
| PNone => false
| PBool b => b
| PInt n => negb (n =? 0)
| PFloat x => negb (F64.is_zero x)
| PStr s => negb (String.eqb s "")
end.

(** [a or b] *)
Definition py_or (a b : pyval) : pyval := if truthy a then a else b.

(** [d.get(k, default)] *)
Definition get (d : record) (k : string) (default : pyval) : pyval :=
match d !! k with
| Some v => v
| None => default
end.

(** [v == 'literal'] for a string literal. *)
Definition eq_str (v : pyval) (s : string) : bool :=
match v with
| PStr t => String.eqb t s
| _ => false
end.

(** [v in [s1, s2, ...]] for string literals. *)
Definition in_strs (v : pyval) (l : list string) : bool := existsb (eq_str v) l.

(** [k in s] on strings: [k] occurs in [s] as a substring. *)
Fixpoint contains (k s : string) : bool :=
if String.prefix k s then true
else match s with
     | EmptyString => false
     | String _ s' => contains k s'
     end.

(** [pd.notna(v)] *)
Definition notna (v : pyval) : bool :=
match v with
| PNone => false
| PFloat x => negb (F64.is_nan x)
| _ => true
end.

Section Builtins.
Context `{PyRuntime}.

(** [float(v)] *)
Definition py_float (v : pyval) : res spec_float :=
  match v with
  | PNone => Raise TypeError
  | PBool b => Ok (F64.of_Z (if b then 1 else 0))
  | PInt n =>
      match F64.of_Z n with
      | S754_infinity _ => Raise OverflowError
      | x => Ok x
      end
  | PFloat x => Ok x
  | PStr s =>
      match float_of_string s with
      | Some x => Ok x
      | None => Raise ValueError
      end
  end.

(** [int(v)] *)
Definition py_int (v : pyval) : res Z :=
  match v with
  | PNone => Raise TypeError
  | PBool b => Ok (if b then 1 else 0)
  | PInt n => Ok n
  | PFloat S754_nan => Raise ValueError
  | PFloat (S754_infinity _) => Raise OverflowError
  | PFloat x =>
      match F64.trunc x with
      | Some n => Ok n
      | None => Raise ValueError
      end
  | PStr s =>
      match int_of_string s with
      | Some n => Ok n
      | None => Raise ValueError
      end
  end.

(** [str(v)], also what an f-string prints for [{v}] *)
Definition py_str (v : pyval) : string :=
  match v with
  | PNone => "None"
  | PBool true => "True"
  | PBool false => "False"
  | PInt n => pretty n
  | PFloat x => repr_float x
  | PStr s => s
  end.

(** [v.lower()]: only strings have the method. *)
Definition py_lower (v : pyval) : res string :=
  match v with
  | PStr s => Ok (str_lower s)
  | _ => Raise AttributeError
  end.

(** [v.upper()] *)
Definition py_upper (v : pyval) : res string :=
  match v with
  | PStr s => Ok (str_upper s)
  | _ => Raise AttributeError
  end.

End Builtins.

(* ===================================================================== *)
(** * Arithmetic on scalar values *)
(* ===================================================================== *)

(** The exact comparison of an integer with a float, as Python makes it. *)
Definition Z_compare_float (n : Z) (x : spec_float) : option comparison :=
  match x with
  | S754_nan => None
  | S754_infinity s => Some (if s then Gt else Lt)
  | S754_zero _ => Some (n ?= 0)
  | S754_finite s m e =>
      let v := if s then Zneg m else Zpos m in
      Some (if 0 <=? e then n ?= v * 2 ^ e else n * 2 ^ (- e) ?= v)
  end.

(** A number as the numeric operators see it: [bool] is an [int]. *)
Inductive number : Type :=
| NInt (n : Z)
| NFloat (x : spec_float).

Definition as_number (v : pyval) : res number :=
  match v with
  | PBool b => Ok (NInt (if b then 1 else 0))
  | PInt n => Ok (NInt n)
  | PFloat x => Ok (NFloat x)
  | PNone | PStr _ => Raise TypeError
  end.

Definition of_number (a : number) : pyval :=
  match a with
  | NInt n => PInt n
  | NFloat x => PFloat x
  end.

(** [a == b] on numbers. *)
Definition num_eqb (a b : number) : bool :=
  match a, b with
  | NInt m, NInt n => m =? n
  | NInt m, NFloat y =>
      match Z_compare_float m y with Some Eq => true | _ => false end
  | NFloat x, NInt n =>
      match Z_compare_float n x with Some Eq => true | _ => false end
  | NFloat x, NFloat y => F64.eqb x y
  end.

(** [a == b] on scalar values. *)
Definition py_eqb (a b : pyval) : bool :=
  match a, b with
  | PNone, PNone => true
  | PStr s, PStr t => String.eqb s t
  | PNone, _ | _, PNone | PStr _, _ | _, PStr _ => false
  | _, _ =>
      match as_number a, as_number b with
      | Ok x, Ok y => num_eqb x y
      | _, _ => false
      end
  end.

(** [float(n)] on an integer. *)
Definition float_of_int (n : Z) : res spec_float :=
  match F64.of_Z n with
  | S754_infinity _ => Raise OverflowError
  | x => Ok x
  end.

(** [a + b] on numbers. *)
Definition num_add (a b : number) : res number :=
  match a, b with
  | NInt m, NInt n => Ok (NInt (m + n))
  | NInt m, NFloat y => x ← float_of_int m; Ok (NFloat (F64.add x y))
  | NFloat x, NInt n => y ← float_of_int n; Ok (NFloat (F64.add x y))
  | NFloat x, NFloat y => Ok (NFloat (F64.add x y))
  end.

(** [a < b] on numbers. *)
Definition num_ltb (a b : number) : bool :=
  match a, b with
  | NInt m, NInt n => m <? n
  | NInt m, NFloat y =>
      match Z_compare_float m y with Some Lt => true | _ => false end
  | NFloat x, NInt n =>
      match Z_compare_float n x with Some Gt => true | _ => false end
  | NFloat x, NFloat y => F64.ltb x y
  end.

(** [a <= b] on numbers. *)
Definition num_leb (a b : number) : bool :=
  match a, b with
  | NInt m, NInt n => m <=? n
  | NInt m, NFloat y =>
      match Z_compare_float m y with Some (Lt | Eq) => true | _ => false end
  | NFloat x, NInt n =>
      match Z_compare_float n x with Some (Gt | Eq) => true | _ => false end
  | NFloat x, NFloat y => F64.leb x y
  end.

(** [a / n] for an integer [n], here always a [len(...)]. *)
Definition num_div_int (a : number) (n : Z) : res spec_float :=
  match n with
  | Z0 => Raise ZeroDivisionError
  | Zpos d =>
      match a with
      | NInt m =>
          match F64.of_ratio m d with
          | S754_infinity _ => Raise OverflowError
          | q => Ok q
          end
      | NFloat x => Ok (F64.div x (F64.of_Z n))
      end
  | Zneg d =>
      match a with
      | NInt m =>
          match F64.of_ratio (- m) d with
          | S754_infinity _ => Raise OverflowError
          | q => Ok q
          end
      | NFloat x => Ok (F64.div x (F64.of_Z n))
      end
  end.

(** [sum(l)]: the additions start from the integer [0]. *)
Definition py_sum (l : list pyval) : res number :=
  foldl (fun acc v => a ← acc; b ← as_number v; num_add a b) (Ok (NInt 0)) l.

(** [min(l)] and [max(l)] on a non-empty list: the first element is kept
    until a later one compares smaller (larger). *)
Definition py_min (first : number) (rest : list number) : number :=
  foldl (fun cur x => if num_ltb x cur then x else cur) first rest.

Definition py_max (first : number) (rest : list number) : number :=
  foldl (fun cur x => if num_ltb cur x then x else cur) first rest.

(** A number under a float format specification such as [:.0f]. *)
Definition num_to_float (a : number) : res spec_float :=
  match a with
  | NInt n => float_of_int n
  | NFloat x => Ok x
  end.

(** [l.append(x)] *)
Definition append {A} (l : list A) (x : A) : list A := app l [x].

(** [len(l)] *)
Definition len {A} (l : list A) : Z := Z.of_nat (length l).

(** [sum(1 for x in l if f(x))], [l.count(...)] *)
Definition count_if {A} (f : A -> bool) (l : list A) : Z := len (List.filter f l).



(* ===================================================================== *)
(** * backend/signal_processor.py *)
(* ===================================================================== *)

Module signal_processor.
Section WithRuntime.
Context `{PyRuntime}.

(** [_valuation_band(val)] *)
Definition _valuation_band (val : spec_float) : string :=
  if F64.leb val (F64.of_Z 0) then "Unknown"
  else if F64.ltb val (F64.of_Z 250000) then "Low"
  else if F64.leb val (F64.of_Z 750000) then "Mid"
  else "High".

(** The loop [for c in candidates: if c in row and pd.notna(row[c])]:
    the value of the first candidate column that is present and not
    null. *)
Fixpoint first_notna (row : record) (candidates : list string) : option pyval :=
  match candidates with
  | [] => None
  | c :: rest =>
      match row !! c with
      | Some v => if notna v then Some v else first_notna row rest
      | None => first_notna row rest
      end
  end.

Definition flood_candidates : list string :=
  ["flood_zone"; "FloodZone"; "fema_zone"; "FEMAZone"; "fema_floodplain"].

(** The mapping of an upper-cased zone code, [zone_val], to a tier. *)
Definition zone_tier (zone_val : string) : string :=
  if existsb (fun k => contains k zone_val) ["X"; "MINIMAL"] then "Low"
  else if existsb (fun k => contains k zone_val) ["AE"; "A"; "0.2%"; "500"] then "Medium"
  else if existsb (fun k => contains k zone_val) ["FLOODWAY"; "VE"; "HIGH"] then "High"
  else "Unknown".

(** [_flood_risk(row)] *)
Definition _flood_risk (row : record) : string :=
  match first_notna row flood_candidates with
  | None => "Unknown"
  | Some v =>
      let zone_val := str_upper (py_str v) in
      if String.eqb zone_val "" then "Unknown" else zone_tier zone_val
  end.





Definition CORP_KEYWORDS : list string :=
  ["LLC"; "L.L.C"; "INC"; "CORP"; "LP"; "LLP"; "CO."; "COMPANY";
   "ENTERPRISES"; "HOLDINGS"].

Definition owner_cols : list string :=
  ["party_owner1_name_full"; "party_owner2_name_full"; "OwnerName"; "OwnerName1"].

(** The loop of [_ownership_type_from_names] over the owner columns. *)
Fixpoint ownership_scan (row : record) (cols : list string) : string :=
  match cols with
  | [] => "Individual"
  | col :: rest =>
      match row !! col with
      | Some v =>
          if notna v
             && existsb (fun k => contains k (str_upper (py_str v))) CORP_KEYWORDS
          then "LLC"
          else ownership_scan row rest
      | None => ownership_scan row rest
      end
  end.

(** [_ownership_type_from_names(row)] *)
Definition _ownership_type_from_names (row : record) : string :=
  ownership_scan row owner_cols.

Definition year_cols : list string :=
  ["YearBuilt"; "year_built"; "YEAR_BUILT"; "built_year"].

(** The loop of [_property_age] over the year columns: a year that does
    not parse, or lies outside (1800, current year], is passed over. *)
Fixpoint property_age_scan (row : record) (cols : list string) : option Z :=
  match cols with
  | [] => None
  | col :: rest =>
      match row !! col with
      | Some v =>
          if notna v then
            match int_of_string (str_strip (py_str v)) with
            | Some year_val =>
                if (1800 <? year_val) && (year_val <=? current_year)
                then Some (current_year - year_val)
                else property_age_scan row rest
            | None => property_age_scan row rest
            end
          else property_age_scan row rest
      | None => property_age_scan row rest
      end
  end.

(** [_property_age(row)] *)
Definition _property_age (row : record) : option Z :=
  property_age_scan row year_cols.

(** [_classification_hint(row)]; a valuation or an age that is not a
    number cannot be compared and raises [TypeError]. *)
Definition _classification_hint (row : record) : res string :=
  let val := get row "primary_valuation" (PInt 0) in
  let age := get row "property_age" PNone in
  let ownership := get row "ownership_type" (PStr "Unknown") in
  let score := 50 in
  val ← as_number val;
  let score :=
    if num_ltb (NInt 0) val then
      if num_ltb val (NInt 250000) then score + 15
      else if num_ltb (NInt 750000) val then score - 10
      else score + 5
    else score in
  score ←
    match age with
    | PNone => Ok score
    | _ =>
        age ← as_number age;
        if num_leb (NInt 5) age && num_leb age (NInt 20) then Ok (score + 20)
        else if num_ltb age (NInt 5) then Ok (score + 10)
        else if num_ltb (NInt 40) age then Ok (score - 15)
        else Ok score
    end;
  let score :=
    if in_strs ownership ["LLC"; "Corporation"] then score + 10 else score in
  if score >=? 70 then Ok "Buy"
  else if score >=? 50 then Ok "Hold"
  else Ok "Watch".

End WithRuntime.
End signal_processor.


(* ===================================================================== *)
(** * backend/ai_analyzer.py *)
(* ===================================================================== *)

Module PropertyAnalyzer.

(** The dictionary [_rule_based_analysis] returns. *)
Record analysis : Type := {
  summary : string;
  classification : string;
  confidence : spec_float;
  insights : list string;
  risk_level : string;
  investment_score : Z;
  valuation : spec_float;
  property_age : Z
}.

(** The dictionary [analyze_batch] returns; [breakdown] (buy, hold, watch)
    and [average_valuation] are keys of the non-empty case only. *)
Record batch_analysis : Type := {
  batch_summary : string;
  batch_classification : string;
  batch_confidence : spec_float;
  batch_insights : list string;
  properties_analyzed : Z;
  breakdown : option (Z * Z * Z);
  average_valuation : option spec_float
}.

(** The float literals of the scorer. *)
Definition c_0_75 : spec_float := F64.of_ratio 75 100.
Definition c_0_60 : spec_float := F64.of_ratio 60 100.
Definition c_0_50 : spec_float := F64.of_ratio 50 100.
Definition c_0_01 : spec_float := F64.of_ratio 1 100.
Definition c_0_005 : spec_float := F64.of_ratio 5 1000.
Definition c_0_002 : spec_float := F64.of_ratio 2 1000.
Definition c_0_95 : spec_float := F64.of_ratio 95 100.

(** Lines 111-140: the investment score. *)
Definition compute_score (valuation : spec_float) (property_age : Z)
    (ownership flood_risk : pyval) : Z :=
  let score := 50 in
  let score :=
    if F64.ltb valuation (F64.of_Z 250000) then score + 15
    else if F64.gtb valuation (F64.of_Z 750000) then score - 10
    else score + 5 in
  let score :=
    if (5 <=? property_age) && (property_age <=? 20) then score + 20
    else if property_age <? 5 then score + 10
    else if property_age >? 40 then score - 15
    else score in
  let score :=
    if eq_str ownership "Individual" then score + 5
    else if in_strs ownership ["LLC"; "Corporation"] then score + 10
    else score in
  let score :=
    if in_strs flood_risk ["High"; "Medium"] then score - 20
    else if eq_str flood_risk "Low" then score + 10
    else score in
  score.

(** Lines 142-151: the classification and the confidence before the cap. *)
Definition classify (score : Z) : string * spec_float :=
  if score >=? 70 then
    ("Buy", F64.add c_0_75 (F64.mul (F64.of_Z (score - 70)) c_0_01))
  else if score >=? 50 then
    ("Hold", F64.add c_0_60 (F64.mul (F64.of_Z (score - 50)) c_0_005))
  else
    ("Watch", F64.add c_0_50 (F64.mul (F64.of_Z score) c_0_002)).

(** Line 153: [min(confidence, 0.95)]. *)
Definition cap (confidence : spec_float) : spec_float :=
  if F64.ltb c_0_95 confidence then c_0_95 else confidence.

(** Line 156: the risk level. *)
Definition risk_of (score : Z) : string :=
  if score >=? 70 then "Low" else if score >=? 50 then "Medium" else "High".

Section WithRuntime.
Context `{PyRuntime}.

(** [_generate_summary] *)
Definition _generate_summary (prop : record) (classification : string)
    (score : Z) (valuation : spec_float) (property_age : Z)
    (ownership flood_risk city : pyval) : res string :=
  let val_str :=
    if F64.gtb valuation (F64.of_Z 0) then "$" +:+ format_comma_0f valuation
    else "undisclosed" in
  let age_str :=
    if property_age >? 0 then pretty property_age +:+ " years old"
    else "new construction" in
  let '(sentiment, action) :=
    if String.eqb classification "Buy" then
      ("strong investment opportunity",
       "This property presents attractive fundamentals with")
    else if String.eqb classification "Hold" then
      ("moderate investment potential", "This property offers")
    else
      ("requires careful evaluation",
       "This property warrants caution due to") in
  let summary :=
    action +:+ " a valuation of " +:+ val_str +:+ " in " +:+ py_str city +:+ ". " in
  owner_lower ← py_lower ownership;
  let summary :=
    summary +:+ ("Built " +:+ age_str +:+ ", this " +:+ owner_lower
                 +:+ "-owned property is a " +:+ sentiment +:+ ". ") in
  summary ←
    (if in_strs flood_risk ["High"; "Medium"] then
       flood_lower ← py_lower flood_risk;
       Ok (summary +:+ ("Note: Property has " +:+ flood_lower
                        +:+ " flood risk exposure. "))
     else if eq_str flood_risk "Low" then
       Ok (summary +:+ "Low flood risk enhances investment appeal. ")
     else Ok summary);
  Ok (summary +:+ ("Investment score: " +:+ pretty score +:+ "/100.")).

(** [_generate_insights] *)
Definition _generate_insights (prop : record) (classification : string)
    (score : Z) (valuation : spec_float) (property_age : Z)
    (ownership flood_risk : pyval) : list string :=
  let insights : list string := [] in
  let insights :=
    if F64.ltb valuation (F64.of_Z 250000) then
      append insights "Entry-level price point offers accessibility for first-time investors"
    else if F64.gtb valuation (F64.of_Z 750000) then
      append insights "Premium valuation requires higher capital commitment and risk tolerance"
    else
      append insights "Mid-market valuation balances opportunity with manageable risk" in
  let insights :=
    if property_age <? 5 then
      append insights "Recent construction reduces immediate maintenance concerns"
    else if (5 <=? property_age) && (property_age <=? 20) then
      append insights "Prime property age combines modern amenities with established value"
    else if property_age >? 40 then
      append insights "Older property may require capital improvements or renovation"
    else insights in
  let insights :=
    if eq_str ownership "LLC" then
      append insights "LLC ownership suggests professional investment approach"
    else if eq_str ownership "Corporation" then
      append insights "Corporate ownership may indicate institutional investment interest"
    else if eq_str ownership "Individual" then
      append insights "Individual ownership typical for owner-occupied or personal investment"
    else insights in
  let insights :=
    if eq_str flood_risk "High" then
      append insights "⚠️ High flood risk requires comprehensive insurance and mitigation planning"
    else if eq_str flood_risk "Medium" then
      append insights "⚠️ Moderate flood exposure warrants insurance review"
    else if eq_str flood_risk "Low" then
      append insights "✓ Low flood risk enhances long-term value stability"
    else insights in
  let valuation_band := get prop "valuation_band" (PStr "Unknown") in
  let insights :=
    if eq_str valuation_band "Low" then
      append insights "Below-market valuation may indicate value opportunity or underlying issues"
    else if eq_str valuation_band "High" then
      append insights "High-end market positioning targets premium buyer segment"
    else insights in
  let insights :=
    if String.eqb classification "Buy" then
      append insights "✓ Strong fundamentals support acquisition consideration"
    else if String.eqb classification "Hold" then
      append insights "Suitable for patient investors seeking moderate returns"
    else
      append insights "Additional due diligence recommended before investment decision" in
  take 6 insights.

(** [_rule_based_analysis] *)
Definition _rule_based_analysis (prop : record) : res analysis :=
  valuation ← py_float (py_or (get prop "primary_valuation" (PInt 0)) (PInt 0));
  let ownership := get prop "ownership_type" (PStr "Unknown") in
  property_age ← py_int (py_or (get prop "property_age" (PInt 0)) (PInt 0));
  let flood_risk := get prop "flood_risk" (PStr "Unknown") in
  let city := get prop "property_address_city" (PStr "Unknown City") in
  let score := compute_score valuation property_age ownership flood_risk in
  let '(classification, confidence) := classify score in
  let confidence := cap confidence in
  let risk_level := risk_of score in
  summary ← _generate_summary prop classification score valuation
              property_age ownership flood_risk city;
  let insights := _generate_insights prop classification score valuation
                    property_age ownership flood_risk in
  Ok {| summary := summary;
        classification := classification;
        confidence := F64.round2 confidence;
        insights := insights;
        risk_level := risk_level;
        investment_score := score;
        valuation := valuation;
        property_age := property_age |}.

(** [_llm_analysis]: the rule-based result under a marked summary. *)
Definition _llm_analysis (prop : record) : res analysis :=
  result ← _rule_based_analysis prop;
  Ok {| summary := "[LLM Mode - Using Rule-Based Fallback] " +:+ summary result;
        classification := classification result;
        confidence := confidence result;
        insights := insights result;
        risk_level := risk_level result;
        investment_score := investment_score result;
        valuation := valuation result;
        property_age := property_age result |}.

(** [analyze_property]; [use_llm] is the attribute [self.use_llm]. *)
Definition analyze_property (use_llm : bool) (property_data : record) : res analysis :=
  if use_llm then _llm_analysis property_data
  else _rule_based_analysis property_data.

(** [_generate_market_summary] *)
Definition _generate_market_summary (properties : list record)
    (buy_count hold_count watch_count : Z) (avg_valuation : spec_float) : res string :=
  let total := len properties in
  buy_ratio ← num_div_int (NInt buy_count) total;
  let buy_pct := F64.mul buy_ratio (F64.of_Z 100) in
  half ← num_div_int (NInt total) 2;
  third ← num_div_int (NInt total) 3;
  let sentiment :=
    if num_ltb (NFloat half) (NInt buy_count) then "strong investment market"
    else if num_ltb (NFloat third) (NInt buy_count) then "moderately favorable market"
    else "cautious market environment" in
  let summary :=
    "Analyzed " +:+ pretty total +:+ " properties with average valuation of $"
    +:+ format_comma_0f avg_valuation +:+ ". " in
  let summary :=
    summary +:+ ("Market assessment: " +:+ sentiment +:+ " with " +:+ pretty buy_count
                 +:+ " buy opportunities (" +:+ format_0f buy_pct +:+ "%), ") in
  let summary :=
    summary +:+ (pretty hold_count +:+ " hold candidates, and " +:+ pretty watch_count
                 +:+ " properties requiring further evaluation.") in
  Ok summary.

(** [_generate_market_insights] *)
Definition _generate_market_insights (properties : list record)
    (analyzed : list analysis) : res (list string) :=
  let insights : list string := [] in
  let valuations :=
    map (fun p => get p "primary_valuation" (PInt 0))
        (List.filter (fun p => truthy (get p "primary_valuation" PNone)) properties) in
  insights ←
    match valuations with
    | [] => Ok insights
    | _ =>
        total ← py_sum valuations;
        avg_val ← num_div_int total (len valuations);
        numbers ← mapM as_number valuations;
        match numbers with
        | [] => Ok insights
        | first :: rest =>
            min_val ← num_to_float (py_min first rest);
            max_val ← num_to_float (py_max first rest);
            Ok (append insights
                  ("Valuation range: $" +:+ format_comma_0f min_val +:+ " - $"
                   +:+ format_comma_0f max_val +:+ " (avg: $"
                   +:+ format_comma_0f avg_val +:+ ")"))
        end
    end;
  let ages :=
    map (fun p => get p "property_age" (PInt 0))
        (List.filter (fun p => truthy (get p "property_age" PNone)) properties) in
  insights ←
    match ages with
    | [] => Ok insights
    | _ =>
        total ← py_sum ages;
        avg_age ← num_div_int total (len ages);
        Ok (append insights
              ("Average property age: " +:+ format_0f avg_age +:+ " years"))
    end;
  let llc_count :=
    count_if (fun p => eq_str (get p "ownership_type" PNone) "LLC") properties in
  half ← num_div_int (NInt (len properties)) 2;
  let insights :=
    if num_ltb (NFloat half) (NInt llc_count) then
      append insights "Majority LLC ownership indicates institutional investor presence"
    else insights in
  let high_risk := count_if (fun a => String.eqb (risk_level a) "High") analyzed in
  third ← num_div_int (NInt (len analyzed)) 3;
  let insights :=
    if num_ltb (NFloat third) (NInt high_risk) then
      append insights "⚠️ Elevated risk profile across portfolio requires careful evaluation"
    else insights in
  avg_score ←
    num_div_int (NInt (foldl Z.add 0 (map investment_score analyzed))) (len analyzed);
  Ok (append insights
        ("Average investment score: " +:+ format_0f avg_score +:+ "/100")).

(** [analyze_batch] *)
Definition analyze_batch (use_llm : bool) (properties : list record) : res batch_analysis :=
  match properties with
  | [] =>
      Ok {| batch_summary := "No properties provided for analysis.";
            batch_classification := "Unknown";
            batch_confidence := S754_zero false;
            batch_insights := [];
            properties_analyzed := 0;
            breakdown := None;
            average_valuation := None |}
  | _ =>
      analyzed ← mapM (analyze_property use_llm) properties;
      let buy_count := count_if (fun a => String.eqb (classification a) "Buy") analyzed in
      let hold_count := count_if (fun a => String.eqb (classification a) "Hold") analyzed in
      let watch_count := count_if (fun a => String.eqb (classification a) "Watch") analyzed in
      total ← py_sum (map (fun p => get p "primary_valuation" (PInt 0)) properties);
      avg_valuation ← num_div_int total (len properties);
      summary ← _generate_market_summary properties buy_count hold_count
                  watch_count avg_valuation;
      confidence_sum ← py_sum (map (fun a => PFloat (confidence a)) analyzed);
      mean_confidence ← num_div_int confidence_sum (len analyzed);
      insights ← _generate_market_insights properties analyzed;
      Ok {| batch_summary := summary;
            batch_classification := "Mixed Portfolio";
            batch_confidence := mean_confidence;
            batch_insights := insights;
            properties_analyzed := len properties;
            breakdown := Some (buy_count, hold_count, watch_count);
            average_valuation := Some (F64.round2 avg_valuation) |}
  end.

End WithRuntime.
End PropertyAnalyzer.


(* ===================================================================== *)
(** * backend/utils/signals.py *)
(* ===================================================================== *)

Module SignalComputer.
Section WithRuntime.
Context `{PyRuntime}.

Definition f_zero : spec_float := S754_zero false.

(** [safe_float]: [ValueError] and [TypeError] of the conversion are
    caught, any other exception leaves the function. *)
Definition safe_float (value : pyval) : res spec_float :=
  if match value with
     | PNone => true
     | PStr s => String.eqb s "" || String.eqb s "None"
     | _ => false
     end
  then Ok f_zero
  else
    match py_float value with
    | Ok x => Ok x
    | Raise ValueError | Raise TypeError => Ok f_zero
    | Raise e => Raise e
    end.

(** [a or b or c or 0] on three floats. *)
Definition first_nonzero (a b c : spec_float) : number :=
  if negb (F64.is_zero a) then NFloat a
  else if negb (F64.is_zero b) then NFloat b
  else if negb (F64.is_zero c) then NFloat c
  else NInt 0.

(** [a / y] for a number [a] and a float [y] that is not zero. *)
Definition num_div_float (a : number) (y : spec_float) : res spec_float :=
  x ← num_to_float a; Ok (F64.div x y).

(** [_compute_valuation_signals] *)
Definition _compute_valuation_signals (property_data : record) : res record :=
  let signals : record := ∅ in
  estimated_value ← safe_float (get property_data "estimated_value" PNone);
  tax_value ← safe_float (get property_data "tax_market_value_total" PNone);
  assessed_value ← safe_float (get property_data "tax_assessed_value_total" PNone);
  let primary_value := first_nonzero estimated_value tax_value assessed_value in
  let signals := <["primary_valuation" := of_number primary_value]> signals in
  let signals :=
    if num_ltb (NInt 0) primary_value then
      if num_ltb primary_value (NInt 200000) then
        <["valuation_band" := PStr "Low"]> signals
      else if num_ltb primary_value (NInt 500000) then
        <["valuation_band" := PStr "Medium"]> signals
      else if num_ltb primary_value (NInt 1000000) then
        <["valuation_band" := PStr "High"]> signals
      else <["valuation_band" := PStr "Premium"]> signals
    else <["valuation_band" := PStr "Unknown"]> signals in
  lot_sf ← safe_float (get property_data "area_lot_sf" (PInt 0));
  signals ←
    (if negb (F64.is_zero lot_sf) && F64.gtb lot_sf (F64.of_Z 0) then
       q ← num_div_float primary_value lot_sf;
       Ok (<["value_per_sf" := PFloat q]> signals)
     else Ok (<["value_per_sf" := PInt 0]> signals));
  let signals :=
    if negb (F64.is_zero assessed_value) && negb (F64.is_zero tax_value)
       && F64.gtb tax_value (F64.of_Z 0) then
      <["assessment_ratio" := PFloat (F64.div assessed_value tax_value)]> signals
    else <["assessment_ratio" := PInt 0]> signals in
  Ok signals.

Definition corp_keywords : list string := ["LLC"; "CORP"; "INC"; "LP"; "LLP"].

(** [_compute_ownership_signals] *)
Definition _compute_ownership_signals (property_data : record) : res record :=
  let signals : record := ∅ in
  let owner1 := get property_data "party_owner1_name_full" (PStr "") in
  let owner2 := get property_data "party_owner2_name_full" (PStr "") in
  let mail_address := get property_data "contact_owner_mail_address_full" (PStr "") in
  let property_address := get property_data "property_address_full" (PStr "") in
  upper1 ← py_upper owner1;
  signals ←
    (if existsb (fun keyword => contains keyword upper1) corp_keywords then
       Ok (<["ownership_type" := PStr "LLC"]> signals)
     else
       upper2 ← py_upper owner2;
       if existsb (fun keyword => contains keyword upper2) corp_keywords then
         Ok (<["ownership_type" := PStr "LLC"]> signals)
       else Ok (<["ownership_type" := PStr "Individual"]> signals));
  let signals :=
    if truthy mail_address && truthy property_address
       && negb (py_eqb mail_address property_address) then
      <["absentee_owner" := PBool true]> signals
    else <["absentee_owner" := PBool false]> signals in
  let signals := <["multiple_owners" := PBool (truthy owner2)]> signals in
  let signals :=
    <["owner_occupied" :=
        PBool (py_eqb (get property_data "status_owner_occupied_flag" PNone) (PStr "1"))]>
      signals in
  Ok signals.

(** [_compute_loan_signals] *)
Definition _compute_loan_signals (property_data : record) : record :=
  <["interest_rate" := PNone]>
    (<["loan_to_value" := PNone]>
       (<["loan_amount" := PNone]> (<["loan_maturity" := PNone]> ∅))).

(** The year parsed from [year_built] inside [try ... except (ValueError,
    TypeError)]: [Some] age when the year lies in [(1800, current year]]. *)
Definition age_of_year_built (year_built : pyval) : option Z :=
  match int_of_string (str_strip (py_str year_built)) with
  | Some year_val =>
      if (1800 <? year_val) && (year_val <=? current_year)
      then Some (current_year - year_val)
      else None
  | None => None
  end.

(** [_compute_flood_risk] *)
Definition _compute_flood_risk (property_data : record) : res string :=
  lat ← safe_float (get property_data "property_latitude" (PInt 0));
  lng ← safe_float (get property_data "property_longitude" (PInt 0));
  valuation ← safe_float (get property_data "tax_market_value_total" (PInt 0));
  let year_built := get property_data "year_built" PNone in
  let age :=
    if truthy year_built then
      match age_of_year_built year_built with
      | Some a => a
      | None => 0
      end
    else 0 in
  inner ←
    (if F64.gtb lat (F64.of_Z 0) && F64.ltb lng (F64.of_Z 0) then
       let center_lat := F64.of_ratio 302672 10000 in
       let center_lng := F64.of_ratio (-977431) 10000 in
       match float_pow (F64.sub lat center_lat) (F64.of_Z 2) with
       | None => Raise OverflowError
       | Some dlat2 =>
           match float_pow (F64.sub lng center_lng) (F64.of_Z 2) with
           | None => Raise OverflowError
           | Some dlng2 =>
               match float_pow (F64.add dlat2 dlng2) (F64.of_ratio 5 10) with
               | None => Raise OverflowError
               | Some distance_from_center =>
                   if F64.ltb distance_from_center (F64.of_ratio 5 100) then
                     if F64.gtb valuation (F64.of_Z 500000) then Ok (Some "High")
                     else if F64.gtb valuation (F64.of_Z 200000) then Ok (Some "Medium")
                     else Ok (Some "Low")
                   else if F64.ltb distance_from_center (F64.of_ratio 1 10) then
                     if age >? 30 then Ok (Some "Medium") else Ok (Some "Low")
                   else Ok (Some "Low")
               end
           end
       end
     else Ok None);
  match inner with
  | Some tier => Ok tier
  | None =>
      if age >? 40 then Ok "Medium"
      else if F64.gtb valuation (F64.of_Z 1000000) then Ok "High"
      else Ok "Low"
  end.

(** [_compute_risk_signals].  The last assignment compares
    [signals.get('property_age', 0)] with [30]; the key is always set by
    then, to an integer or to [None], and [None > 30] raises [TypeError]. *)
Definition _compute_risk_signals (property_data : record) : res record :=
  let signals : record := ∅ in
  let signals := <["tax_delinquent" := PBool false]> signals in
  flood ← _compute_flood_risk property_data;
  let signals := <["flood_risk" := PStr flood]> signals in
  let year_built := get property_data "year_built" PNone in
  let signals :=
    match (if truthy year_built then age_of_year_built year_built else None) with
    | Some age =>
        let signals := <["property_age" := PInt age]> signals in
        if age <? 5 then <["age_category" := PStr "New"]> signals
        else if age <? 20 then <["age_category" := PStr "Recent"]> signals
        else if age <? 50 then <["age_category" := PStr "Mature"]> signals
        else <["age_category" := PStr "Old"]> signals
    | None =>
        <["age_category" := PStr "Unknown"]> (<["property_age" := PNone]> signals)
    end in
  age ← as_number (get signals "property_age" (PInt 0));
  let signals := <["needs_renovation" := PBool (num_ltb (NInt 30) age)]> signals in
  Ok signals.

(** [_compute_market_signals] *)
Definition _compute_market_signals (property_data : record) : res record :=
  let signals : record := ∅ in
  let last_sale_date := get property_data "assessor_last_sale_date" PNone in
  last_sale_amount ← safe_float (get property_data "assessor_last_sale_amount" (PInt 0));
  let signals := <["last_sale_date" := last_sale_date]> signals in
  let signals := <["last_sale_amount" := PFloat last_sale_amount]> signals in
  let signals :=
    match (if truthy last_sale_date then days_since last_sale_date else None) with
    | Some days_since_sale =>
        <["recent_sale" := PBool (days_since_sale <? 365)]>
          (<["days_since_sale" := PInt days_since_sale]> signals)
    | None =>
        <["recent_sale" := PBool false]> (<["days_since_sale" := PNone]> signals)
    end in
  let signals := <["price_appreciation" := PNone]> signals in
  Ok signals.

(** [d.update(e)]: the keys of [e] override those of [d]. *)
Definition update (d e : record) : record := e ∪ d.

(** [compute_property_signals] *)
Definition compute_property_signals (property_data : record) : res record :=
  let signals : record := ∅ in
  valuation ← _compute_valuation_signals property_data;
  let signals := update signals valuation in
  ownership ← _compute_ownership_signals property_data;
  let signals := update signals ownership in
  let signals := update signals (_compute_loan_signals property_data) in
  risk ← _compute_risk_signals property_data;
  let signals := update signals risk in
  market ← _compute_market_signals property_data;
  let signals := update signals market in
  Ok signals.

(** [_rule_based_classification] *)
Definition _rule_based_classification (p : record) : res string :=
  val ← py_float (py_or (get p "primary_valuation" PNone) (PInt 0));
  age ← py_int (py_or (get p "property_age" PNone) (PInt 0));
  let absentee := truthy (get p "absentee_owner" PNone) in
  band ← py_lower (py_or (get p "valuation_band" PNone) (PStr ""));
  let recent_sale := truthy (get p "recent_sale" PNone) in
  if (String.eqb band "high" || String.eqb band "premium") && negb absentee && (age <? 25)
  then Ok "Buy"
  else if recent_sale
          && (String.eqb band "medium" || String.eqb band "high" || String.eqb band "premium")
  then Ok "Hold"
  else if absentee && (String.eqb band "low" || String.eqb band "medium")
  then Ok "Watch"
  else Ok "Hold".

(** The body of the [try] block of [compute_batch_signals]. *)
Definition derive (property_data : record) : res record :=
  signals ← compute_property_signals property_data;
  let combined := update property_data signals in
  hint ← _rule_based_classification combined;
  Ok (<["classification_hint" := PStr hint]> combined).

(** The minimal signals of the [except] block. *)
Definition minimal_signals : record :=
  <["age_category" := PStr "Unknown"]>
    (<["property_age" := PNone]>
       (<["absentee_owner" := PBool false]>
          (<["ownership_type" := PStr "Unknown"]>
             (<["valuation_band" := PStr "Unknown"]>
                (<["primary_valuation" := PInt 0]> ∅))))).

(** The record the [except] block appends. *)
Definition safe_default (property_data : record) : record :=
  <["classification_hint" := PStr "Watch"]> (update property_data minimal_signals).

(** [compute_batch_signals]: the list of results, and the warnings
    printed on the way (index of the record and the exception caught). *)
Fixpoint compute_batch_from (i : nat) (properties : list record)
    : list record * list (nat * exn) :=
  match properties with
  | [] => ([], [])
  | property_data :: rest =>
      let '(results, warnings) := compute_batch_from (S i) rest in
      match derive property_data with
      | Ok combined => (combined :: results, warnings)
      | Raise e => (safe_default property_data :: results, (i, e) :: warnings)
      end
  end.

Definition compute_batch_signals (properties : list record)
    : list record * list (nat * exn) :=
  compute_batch_from 0 properties.

End WithRuntime.
End SignalComputer.


(* ===================================================================== *)
(** * backend/ai_scoutgpt.py *)
(* ===================================================================== *)

Module AIScoutGPT.

(** The fields passed through when no input schema is configured. *)
Definition allow : gset string :=
  list_to_set
    ["property_id"; "attom_id"; "address"; "property_address_full";
     "primary_valuation"; "valuation_band"; "ownership_type";
     "loan_maturity"; "flood_risk"; "tax_delinquent";
     "property_latitude"; "property_longitude"].

(** One round of the loop [for field in self.input_schema.keys()]. *)
Definition shape_field (signal : record) (shaped : record) (field : string) : record :=
  match signal !! field with
  | Some v => <[field := v]> shaped
  | None =>
      if String.eqb field "property_id" then
        match signal !! "attom_id" with
        | Some v => <["property_id" := v]> shaped
        | None => shaped
        end
      else if String.eqb field "address" then
        match signal !! "property_address_full" with
        | Some v => <["address" := v]> shaped
        | None => shaped
        end
      else shaped
  end.

(** [_filter_signal]; [input_schema] lists the keys of [self.input_schema],
    which is empty when no schema is configured. *)
Definition _filter_signal (input_schema : list string) (signal : record) : record :=
  match input_schema with
  | [] => filter (fun kv => kv.1 ∈ allow) signal
  | _ => foldl (shape_field signal) ∅ input_schema
  end.

(** The JSON body posted to the oracle. *)
Record payload : Type := {
  context : record;
  signals : list record
}.

(** [call_scoutgpt], up to the request: the payload that is posted.
    [None] stands for an argument that is [None]. *)
Definition call_scoutgpt_payload (input_schema : list string)
    (signal_batch : option (list record)) (context : option record) : payload :=
  let signals := map (_filter_signal input_schema) (default [] signal_batch) in
  {| context := default ∅ context; signals := signals |}.

Definition DEFAULT_ENDPOINT_NAME : string := "scoutgpt_analysis".

(** [name in d] and [d[name]] on the endpoint mapping, a dictionary that
    keeps its insertion order. *)
Fixpoint assoc (name : string) (d : list (string * string)) : option string :=
  match d with
  | [] => None
  | (k, url) :: rest => if String.eqb k name then Some url else assoc name rest
  end.

(** [_resolve_endpoint(name)]; [None] stands for an argument that is
    [None]. *)
Definition _resolve_endpoint (endpoints : list (string * string))
    (name : option string) : string :=
  match (match name with
         | Some n => if String.eqb n "" then None else assoc n endpoints
         | None => None
         end) with
  | Some url => url
  | None =>
      match assoc DEFAULT_ENDPOINT_NAME endpoints with
      | Some url => url
      | None =>
          match endpoints with
          | (_, url) :: _ => url
          | [] => "http://localhost:8001/api/analyze"
          end
      end
  end.

End AIScoutGPT.


(* ===================================================================== *)
(** * A runtime for the concrete examples *)
(* ===================================================================== *)

Module Example.

Definition map_ascii (f : ascii -> ascii) : string -> string :=
  fix go (s : string) : string :=
    match s with
    | EmptyString => EmptyString
    | String c s' => String (f c) (go s')
    end.

Definition upper_ascii (c : ascii) : ascii :=
  let n := N_of_ascii c in
  if ((97 <=? n) && (n <=? 122))%N then ascii_of_N (n - 32) else c.

Definition lower_ascii (c : ascii) : ascii :=
  let n := N_of_ascii c in
  if ((65 <=? n) && (n <=? 90))%N then ascii_of_N (n + 32) else c.

(** The nearest integer of a float ([None] for an infinity or a NaN). *)
Definition nearest_Z (x : spec_float) : option Z :=
  match x with
  | S754_zero _ => Some 0
  | S754_finite s m e =>
      let a := if 0 <=? e then Zpos m * 2 ^ e
               else F64.round_half_even (Zpos m) (2 ^ (- e)) in
      Some (if s then - a else a)
  | _ => None
  end.

(** ASCII case mapping, parsers that accept no string, integer-rounding
    formats without digit grouping, [x ** 2] and [x ** 0.5] only.  The
    examples below use strings of ASCII letters and numbers that are not
    given as strings, where this runtime agrees with Python. *)
#[export] Instance runtime : PyRuntime := {|
  float_of_string := fun _ => None;
  int_of_string := fun _ => None;
  repr_float := fun x => match nearest_Z x with Some n => pretty n | None => "nan" end;
  format_comma_0f := fun x => match nearest_Z x with Some n => pretty n | None => "nan" end;
  format_0f := fun x => match nearest_Z x with Some n => pretty n | None => "nan" end;
  str_upper := map_ascii upper_ascii;
  str_lower := map_ascii lower_ascii;
  str_strip := fun s => s;
  float_pow := fun x y =>
    if F64.eqb y (F64.of_Z 2) then Some (F64.mul x x)
    else if F64.eqb y (F64.of_ratio 5 10) then Some (F64.sqrt x)
    else None;
  current_year := 2025;
  days_since := fun _ => None
|}.

(** A runtime for the examples on years: [int] reads the text "1990". *)
Definition year_runtime : PyRuntime := {|
  float_of_string := fun _ => None;
  int_of_string := fun s => if String.eqb s "1990" then Some 1990 else None;
  repr_float := fun _ => "nan";
  format_comma_0f := fun _ => "nan";
  format_0f := fun _ => "nan";
  str_upper := fun s => s;
  str_lower := fun s => s;
  str_strip := fun s => s;
  float_pow := fun _ _ => None;
  current_year := 2025;
  days_since := fun _ => None
|}.

(** Records of the examples. *)
Definition best_case : record :=
  <["primary_valuation" := PInt 200000]>
    (<["property_age" := PInt 10]>
       (<["ownership_type" := PStr "LLC"]> (<["flood_risk" := PStr "Low"]> ∅))).

Definition worst_case : record :=
  <["primary_valuation" := PInt 900000]>
    (<["property_age" := PInt 45]>
       (<["ownership_type" := PStr "Trust"]> (<["flood_risk" := PStr "High"]> ∅))).

Definition mid_case : record :=
  <["primary_valuation" := PInt 500000]> (<["property_age" := PInt 30]> ∅).

End Example.

(* ===================================================================== *)
(** * The order of binary64 numbers *)
(* ===================================================================== *)

(** A float that is not a NaN is placed on a line of integer triples,
    ordered lexicographically: the class (infinities, negative, zero,
    positive), then the exponent and the mantissa. *)
Definition float_key (x : spec_float) : option (Z * Z * Z) :=
  match x with
  | S754_nan => None
  | S754_infinity true => Some (-2, 0, 0)
  | S754_infinity false => Some (2, 0, 0)
  | S754_zero _ => Some (0, 0, 0)
  | S754_finite true m e => Some (-1, - e, Zneg m)
  | S754_finite false m e => Some (1, e, Zpos m)
  end.

Definition key_compare (a b : Z * Z * Z) : comparison :=
  let '(a1, a2, a3) := a in
  let '(b1, b2, b3) := b in
  match a1 ?= b1 with
  | Eq => match a2 ?= b2 with
          | Eq => a3 ?= b3
          | c => c
          end
  | c => c
  end.

(** [a] lies strictly before [b] on the line of keys. *)
Definition key_lt (a b : Z * Z * Z) : Prop :=
  a.1.1 < b.1.1 \/
  (a.1.1 = b.1.1 /\ (a.1.2 < b.1.2 \/ (a.1.2 = b.1.2 /\ a.2 < b.2))).

Definition key_le (a b : Z * Z * Z) : Prop :=
  key_lt a b \/ (a.1.1 = b.1.1 /\ a.1.2 = b.1.2 /\ a.2 = b.2).

(** The order of the valuation bands. *)
Definition band_rank (band : string) : Z :=
  if String.eqb band "Low" then 1
  else if String.eqb band "Mid" then 2
  else if String.eqb band "High" then 3
  else 0.

#[local] Instance key_lt_dec (a b : Z * Z * Z) : Decision (key_lt a b).
Proof. unfold key_lt. apply _. Defined.

#[local] Instance key_le_dec (a b : Z * Z * Z) : Decision (key_le a b).
Proof. unfold key_le. apply _. Defined.

(* ===================================================================== *)
(** * The scoring table in the words of the specification *)
(* ===================================================================== *)

(** Valuation: below 250,000 adds 15, above 750,000 subtracts 10, any
    other valuation adds 5. *)
Inductive valuation_adjustment (v : spec_float) : Z -> Prop :=
| va_below :
    F64.ltb v (F64.of_Z 250000) = true -> valuation_adjustment v 15
| va_above :
    F64.gtb v (F64.of_Z 750000) = true -> valuation_adjustment v (-10)
| va_other :
    F64.ltb v (F64.of_Z 250000) = false ->
    F64.gtb v (F64.of_Z 750000) = false -> valuation_adjustment v 5.

(** Age: 5 to 20 adds 20, below 5 adds 10, above 40 subtracts 15, 21 to 40
    adds nothing. *)
Inductive age_adjustment (age : Z) : Z -> Prop :=
| aa_prime : 5 <= age <= 20 -> age_adjustment age 20
| aa_new : age < 5 -> age_adjustment age 10
| aa_old : 40 < age -> age_adjustment age (-15)
| aa_middle : 21 <= age <= 40 -> age_adjustment age 0.

(** Ownership: "Individual" adds 5, "LLC" or "Corporation" adds 10, and
    nothing else is scored. *)
Inductive ownership_adjustment (o : pyval) : Z -> Prop :=
| oa_individual : o = PStr "Individual" -> ownership_adjustment o 5
| oa_company :
    o = PStr "LLC" \/ o = PStr "Corporation" -> ownership_adjustment o 10
| oa_other :
    o <> PStr "Individual" -> o <> PStr "LLC" -> o <> PStr "Corporation" ->
    ownership_adjustment o 0.

(** Flood risk: "High" or "Medium" subtracts 20, "Low" adds 10, "Unknown"
    (as any other value) adds nothing. *)
Inductive flood_adjustment (f : pyval) : Z -> Prop :=
| fa_high :
    f = PStr "High" \/ f = PStr "Medium" -> flood_adjustment f (-20)
| fa_low : f = PStr "Low" -> flood_adjustment f 10
| fa_other :
    f <> PStr "High" -> f <> PStr "Medium" -> f <> PStr "Low" ->
    flood_adjustment f 0.

(** The integers from [lo] on, [n] of them. *)
Definition Z_range (lo : Z) (n : nat) : list Z :=
  map (fun i => lo + Z.of_nat i) (seq 0 n).

(* ===================================================================== *)
(** * Notions used to state the further properties *)
(* ===================================================================== *)


(** [v] is a number: a [bool], an [int] or a [float]. *)
Definition is_number (v : pyval) : bool := is_ok (as_number v).

(** What a record becomes in a batch. *)
Definition batch_outcome `{PyRuntime} (p : record) : record :=
  match SignalComputer.derive p with
  | Ok combined => combined
  | Raise _ => SignalComputer.safe_default p
  end.

(** The keys of a record that the rule-based analysis reads. *)
Definition analysis_keys : list string :=
  ["primary_valuation"; "property_age"; "ownership_type"; "flood_risk";
   "property_address_city"; "valuation_band"].

(** What a signal can supply for a field of the schema: its own value, or,
    for [property_id] and [address] alone, that of [attom_id] and of
    [property_address_full]. *)
Definition supplied (signal : record) (field : string) : option pyval :=
  match signal !! field with
  | Some v => Some v
  | None =>
      if String.eqb field "property_id" then signal !! "attom_id"
      else if String.eqb field "address" then signal !! "property_address_full"
      else None
  end.

(* ===================================================================== *)
(** * Properties *)
(* ===================================================================== *)

(** ** Comparisons of floats as comparisons of keys *)

Lemma SFcompare_key (x y : spec_float) :
  SFcompare x y =
    match float_key x, float_key y with
    | Some a, Some b => Some (key_compare a b)
    | _, _ => None
    end.
Proof.
  destruct x as [sx|sx| |sx mx ex], y as [sy|sy| |sy my ey];
    try destruct sx; try destruct sy; try reflexivity.
  unfold SFcompare, float_key, key_compare. f_equal.
  rewrite Z.compare_opp. change (-1 ?= -1) with Eq. cbv iota.
  rewrite (Z.compare_antisym ex ey).
  destruct (ex ?= ey) eqn:E; simpl; reflexivity.
Qed.

Lemma key_compare_Lt (a b : Z * Z * Z) : key_compare a b = Lt <-> key_lt a b.
Proof.
  destruct a as [[a1 a2] a3], b as [[b1 b2] b3]. unfold key_compare, key_lt. simpl.
  destruct (Z.compare_spec a1 b1), (Z.compare_spec a2 b2), (Z.compare_spec a3 b3);
    split; intros; try discriminate; try reflexivity; lia.
Qed.

Lemma key_compare_Eq (a b : Z * Z * Z) : key_compare a b = Eq <-> a = b.
Proof.
  destruct a as [[a1 a2] a3], b as [[b1 b2] b3]. unfold key_compare.
  destruct (Z.compare_spec a1 b1), (Z.compare_spec a2 b2), (Z.compare_spec a3 b3);
    split; intros E; try discriminate; try reflexivity;
    try (injection E; intros; lia); subst; reflexivity.
Qed.

Lemma ltb_true (x y : spec_float) :
  F64.ltb x y = true <->
  exists a b, float_key x = Some a /\ float_key y = Some b /\ key_lt a b.
Proof.
  unfold F64.ltb, SFltb. rewrite SFcompare_key.
  destruct (float_key x) as [a|], (float_key y) as [b|]; split;
    try (intros E; discriminate E);
    try (intros (a' & b' & E1 & E2 & _); discriminate).
  - intros E. exists a, b. repeat split. apply key_compare_Lt.
    destruct (key_compare a b); congruence.
  - intros (a' & b' & E1 & E2 & L). injection E1 as <-. injection E2 as <-.
    apply key_compare_Lt in L. rewrite L. reflexivity.
Qed.

Lemma leb_true (x y : spec_float) :
  F64.leb x y = true <->
  exists a b, float_key x = Some a /\ float_key y = Some b /\ (key_lt a b \/ a = b).
Proof.
  unfold F64.leb, SFleb. rewrite SFcompare_key.
  destruct (float_key x) as [a|], (float_key y) as [b|]; split;
    try (intros E; discriminate E);
    try (intros (a' & b' & E1 & E2 & _); discriminate).
  - intros E. exists a, b. repeat split.
    destruct (key_compare a b) eqn:C; try discriminate.
    + right. apply key_compare_Eq, C.
    + left. apply key_compare_Lt, C.
  - intros (a' & b' & E1 & E2 & L). injection E1 as <-. injection E2 as <-.
    destruct L as [L|L].
    + apply key_compare_Lt in L. rewrite L. reflexivity.
    + apply key_compare_Eq in L. rewrite L. reflexivity.
Qed.

Lemma key_le_alt (a b : Z * Z * Z) : key_le a b <-> key_lt a b \/ a = b.
Proof.
  destruct a as [[a1 a2] a3], b as [[b1 b2] b3]. unfold key_le. simpl.
  split; (intros [L|E]; [by left | right]).
  - destruct E as (-> & -> & ->). reflexivity.
  - injection E as -> -> ->. done.
Qed.

Lemma ltb_key (x y : spec_float) :
  F64.ltb x y =
    match float_key x, float_key y with
    | Some a, Some b => bool_decide (key_lt a b)
    | _, _ => false
    end.
Proof.
  destruct (F64.ltb x y) eqn:E.
  - apply ltb_true in E as (a & b & -> & -> & L). symmetry. by apply bool_decide_eq_true.
  - destruct (float_key x) as [a|] eqn:Ea, (float_key y) as [b|] eqn:Eb; try reflexivity.
    symmetry. apply bool_decide_eq_false. intros L.
    assert (F64.ltb x y = true) by (apply ltb_true; eauto). congruence.
Qed.

Lemma leb_key (x y : spec_float) :
  F64.leb x y =
    match float_key x, float_key y with
    | Some a, Some b => bool_decide (key_le a b)
    | _, _ => false
    end.
Proof.
  destruct (F64.leb x y) eqn:E.
  - apply leb_true in E as (a & b & -> & -> & L). symmetry.
    apply bool_decide_eq_true. by apply key_le_alt.
  - destruct (float_key x) as [a|] eqn:Ea, (float_key y) as [b|] eqn:Eb; try reflexivity.
    symmetry. apply bool_decide_eq_false. intros L. apply key_le_alt in L.
    assert (F64.leb x y = true) by (apply leb_true; eauto). congruence.
Qed.

Lemma gtb_key (x y : spec_float) :
  F64.gtb x y =
    match float_key x, float_key y with
    | Some a, Some b => bool_decide (key_lt b a)
    | _, _ => false
    end.
Proof.
  unfold F64.gtb. rewrite ltb_key.
  destruct (float_key x), (float_key y); reflexivity.
Qed.

(** The keys of the thresholds of the sources. *)
Lemma key_of_0 : float_key (F64.of_Z 0) = Some (0, 0, 0).
Proof. reflexivity. Qed.

Lemma key_of_250000 : float_key (F64.of_Z 250000) = Some (1, -35, 8589934592000000).
Proof. reflexivity. Qed.

Lemma key_of_750000 : float_key (F64.of_Z 750000) = Some (1, -33, 6442450944000000).
Proof. reflexivity. Qed.

(** Every comparison of the goal and of the hypotheses becomes a
    statement on integer triples, which [lia] decides. *)
Ltac float_cases :=
  rewrite ?ltb_key, ?leb_key, ?gtb_key in *;
  rewrite ?key_of_0, ?key_of_250000, ?key_of_750000 in *;
  repeat match goal with
    | |- context [float_key ?v] => destruct (float_key v) as [[[? ?] ?]|]
    | H : context [float_key ?v] |- _ => destruct (float_key v) as [[[? ?] ?]|]
    end;
  repeat case_bool_decide;
  unfold key_le, key_lt in *; cbn [fst snd] in *;
  try match goal with H : false = true |- _ => discriminate H end;
  try (exfalso; lia).

Ltac float_keys := float_cases; try reflexivity.

Lemma leb_ltb_trans (x y z : spec_float) :
  F64.leb x y = true -> F64.ltb y z = true -> F64.ltb x z = true.
Proof. intros H1 H2. float_keys. Qed.

Lemma leb_trans (x y z : spec_float) :
  F64.leb x y = true -> F64.leb y z = true -> F64.leb x z = true.
Proof. intros H1 H2. float_keys. Qed.

Lemma ltb_not_leb (x y : spec_float) :
  F64.ltb x y = true -> F64.leb y x = false.
Proof. intros H1. float_keys. Qed.

(* --------------------------------------------------------------------- *)
(** ** The valuation band *)
(* --------------------------------------------------------------------- *)

Import signal_processor.

Lemma band_unknown (v : spec_float) :
  F64.leb v (F64.of_Z 0) = true -> _valuation_band v = "Unknown".
Proof. unfold _valuation_band. intros ->. reflexivity. Qed.

Lemma band_low (v : spec_float) :
  F64.ltb (F64.of_Z 0) v = true -> F64.ltb v (F64.of_Z 250000) = true ->
  _valuation_band v = "Low".
Proof. unfold _valuation_band. intros H0 H1. float_keys. Qed.

Lemma band_mid (v : spec_float) :
  F64.leb (F64.of_Z 250000) v = true -> F64.leb v (F64.of_Z 750000) = true ->
  _valuation_band v = "Mid".
Proof. unfold _valuation_band. intros H0 H1. float_keys. Qed.

Lemma band_high (v : spec_float) :
  F64.ltb (F64.of_Z 750000) v = true -> _valuation_band v = "High".
Proof. unfold _valuation_band. intros H0. float_keys. Qed.

Lemma band_monotone (v1 v2 : spec_float) :
  F64.ltb (F64.of_Z 0) v1 = true -> F64.leb v1 v2 = true ->
  band_rank (_valuation_band v1) <= band_rank (_valuation_band v2).
Proof.
  intros H0 H1. unfold _valuation_band.
  pose proof (ltb_not_leb _ _ H0) as P0.
  pose proof (leb_trans v1 v2 (F64.of_Z 0) H1) as T0.
  pose proof (leb_ltb_trans v1 v2 (F64.of_Z 250000) H1) as T1.
  pose proof (leb_trans v1 v2 (F64.of_Z 750000) H1) as T2.
  rewrite P0.
  destruct (F64.leb v2 (F64.of_Z 0)); [specialize (T0 eq_refl); congruence|].
  destruct (F64.ltb v2 (F64.of_Z 250000)); [rewrite (T1 eq_refl); by vm_compute|].
  destruct (F64.leb v2 (F64.of_Z 750000)); [rewrite (T2 eq_refl)|];
    destruct (F64.ltb v1 (F64.of_Z 250000)); try destruct (F64.leb v1 (F64.of_Z 750000));
    by vm_compute.
Qed.

(** C3.  The valuation band depends on the valuation alone: a valuation
    [v <= 0] gives "Unknown", [0 < v < 250000] gives "Low",
    [250000 <= v <= 750000] gives "Mid" and [v > 750000] gives "High";
    the bands of 100000, 500000, 900000 and 0 are "Low", "Mid", "High" and
    "Unknown"; and over positive valuations the band never decreases when
    the valuation grows. *)
Theorem valuation_band_thresholds (v v' : spec_float) :
  (F64.leb v (F64.of_Z 0) = true -> _valuation_band v = "Unknown") /\
  (F64.ltb (F64.of_Z 0) v = true -> F64.ltb v (F64.of_Z 250000) = true ->
   _valuation_band v = "Low") /\
  (F64.leb (F64.of_Z 250000) v = true -> F64.leb v (F64.of_Z 750000) = true ->
   _valuation_band v = "Mid") /\
  (F64.ltb (F64.of_Z 750000) v = true -> _valuation_band v = "High") /\
  _valuation_band (F64.of_Z 100000) = "Low" /\
  _valuation_band (F64.of_Z 500000) = "Mid" /\
  _valuation_band (F64.of_Z 900000) = "High" /\
  _valuation_band (F64.of_Z 0) = "Unknown" /\
  (F64.ltb (F64.of_Z 0) v = true -> F64.leb v v' = true ->
   band_rank (_valuation_band v) <= band_rank (_valuation_band v')).
Proof.
  repeat split.
  - apply band_unknown.
  - apply band_low.
  - apply band_mid.
  - apply band_high.
  - apply band_monotone.
Qed.

Lemma valuation_band_thresholds_witness :
  _valuation_band (F64.of_Z 300000) = "Mid" /\
  band_rank (_valuation_band (F64.of_Z 300000))
    <= band_rank (_valuation_band (F64.of_Z 800000)).
Proof.
  pose proof (valuation_band_thresholds (F64.of_Z 300000) (F64.of_Z 800000))
    as (_ & _ & Hmid & _ & _ & _ & _ & _ & Hmono).
  split.
  - apply Hmid; reflexivity.
  - apply Hmono; reflexivity.
Defined.

(* --------------------------------------------------------------------- *)
(** ** Substrings *)
(* --------------------------------------------------------------------- *)

Lemma prefix_cons (a b : ascii) (k s : string) :
  String.prefix (String a k) (String b s)
  = if ascii_dec a b then String.prefix k s else false.
Proof. reflexivity. Qed.

Lemma prefix_app (k s : string) :
  String.prefix k s = true <-> exists post, s = k +:+ post.
Proof.
  revert s. induction k as [|a k IH]; intros s.
  - split; [intros _; by exists s | by destruct s].
  - destruct s as [|b s]; [split; [done | intros [post E]; discriminate E]|].
    rewrite prefix_cons. destruct (ascii_dec a b) as [->|N].
    + rewrite IH. split; intros [post E]; exists post.
      * by rewrite E.
      * by injection E.
    + split; [done | intros [post E]; injection E; congruence].
Qed.

Lemma contains_nil (k : string) : contains k "" = String.prefix k "".
Proof.
  change (contains k "") with (if String.prefix k "" then true else false).
  by destruct (String.prefix k "").
Qed.
Lemma contains_cons (k : string) c s :
  contains k (String c s) = if String.prefix k (String c s) then true else contains k s.
Proof. reflexivity. Qed.

Lemma contains_occurs (k s : string) :
  contains k s = true <-> exists pre post, s = pre +:+ k +:+ post.
Proof.
  induction s as [|c s IH].
  - rewrite contains_nil, prefix_app. split.
    + intros [post E]. by exists "", post.
    + intros (pre & post & E). destruct pre as [|? ?]; [|discriminate E].
      by exists post.
  - rewrite contains_cons.
    destruct (String.prefix k (String c s)) eqn:P.
    + apply prefix_app in P as [post E]. split; [|done].
      intros _. by exists "", post.
    + rewrite IH. split.
      * intros (pre & post & ->). by exists (String c pre), post.
      * intros (pre & post & E). destruct pre as [|c' pre].
        -- assert (String.prefix k (String c s) = true)
             by (apply prefix_app; by exists post).
           congruence.
        -- injection E as -> ->. by exists pre, post.
Qed.

Lemma string_app_assoc (a b c : string) : (a +:+ b) +:+ c = a +:+ (b +:+ c).
Proof.
  induction a as [|x a IH]; [reflexivity|].
  change (String x (((a +:+ b)) +:+ c) = String x (a +:+ (b +:+ c))).
  by rewrite IH.
Qed.

(* --------------------------------------------------------------------- *)
(** ** The zone-code flood risk *)
(* --------------------------------------------------------------------- *)

Lemma floodway_has_A (z : string) :
  contains "FLOODWAY" z = true -> contains "A" z = true.
Proof.
  rewrite !contains_occurs. intros (pre & post & ->).
  exists (pre +:+ "FLOODW"), ("Y" +:+ post).
  rewrite !string_app_assoc. reflexivity.
Qed.

(** C4 (at the failing input).  The zone code "FLOODWAY" is rated
    "Medium", not "High": it contains the letter "A", and the keywords of
    the medium tier are tried before those of the high tier. *)
Theorem flood_risk_floodway_is_medium :
  zone_tier "FLOODWAY" = "Medium" /\
  _flood_risk (H := Example.runtime) {["flood_zone" := PStr "FLOODWAY"]} = "Medium".
Proof. split; vm_compute; reflexivity. Qed.

(** No zone code that mentions "FLOODWAY" is ever rated "High". *)
Lemma floodway_never_high (z : string) :
  contains "FLOODWAY" z = true -> zone_tier z <> "High".
Proof.
  intros F. apply floodway_has_A in F. unfold zone_tier.
  destruct (existsb _ ["X"; "MINIMAL"]); [discriminate|].
  cbn [existsb]. rewrite F, orb_true_r. cbn. discriminate.
Qed.

(* --------------------------------------------------------------------- *)
(** ** The rule-based scorer *)
(* --------------------------------------------------------------------- *)

Import PropertyAnalyzer.

Lemma eq_str_true (v : pyval) (s : string) : eq_str v s = true <-> v = PStr s.
Proof.
  destruct v; simpl; try (split; [discriminate | intros E; discriminate E]).
  rewrite String.eqb_eq. split; [by intros -> | by intros [= ->]].
Qed.

Lemma eq_str_false (v : pyval) (s : string) : eq_str v s = false <-> v <> PStr s.
Proof.
  rewrite <- eq_str_true. destruct (eq_str v s); split; congruence.
Qed.

(** The adjustments of the table are determined by the input. *)
Lemma valuation_adjustment_unique (v : spec_float) (a b : Z) :
  valuation_adjustment v a -> valuation_adjustment v b -> a = b.
Proof.
  intros [Ha|Ha|Ha Ha'] [Hb|Hb|Hb Hb']; try reflexivity; try congruence;
    exfalso; float_keys.
Qed.

Lemma age_adjustment_unique (age a b : Z) :
  age_adjustment age a -> age_adjustment age b -> a = b.
Proof. intros [?|?|?|?] [?|?|?|?]; lia. Qed.

Lemma ownership_adjustment_unique (o : pyval) (a b : Z) :
  ownership_adjustment o a -> ownership_adjustment o b -> a = b.
Proof.
  intros [?|[?|?]|? ? ?] [?|[?|?]|? ? ?]; try reflexivity; congruence.
Qed.

Lemma flood_adjustment_unique (f : pyval) (a b : Z) :
  flood_adjustment f a -> flood_adjustment f b -> a = b.
Proof.
  intros [[?|?]|?|? ? ?] [[?|?]|?|? ? ?]; try reflexivity; congruence.
Qed.

(** The score of the code is the base of 50 plus one adjustment of the
    table per dimension. *)
Lemma compute_score_table (v : spec_float) (age : Z) (o f : pyval) :
  exists a_v a_a a_o a_f,
    valuation_adjustment v a_v /\ age_adjustment age a_a /\
    ownership_adjustment o a_o /\ flood_adjustment f a_f /\
    compute_score v age o f = 50 + a_v + a_a + a_o + a_f.
Proof.
  unfold compute_score, in_strs. cbn [existsb]. rewrite !orb_false_r.
  assert (exists a_v, valuation_adjustment v a_v /\
            (if F64.ltb v (F64.of_Z 250000) then 50 + 15
             else if F64.gtb v (F64.of_Z 750000) then 50 - 10 else 50 + 5)
            = 50 + a_v) as (a_v & Hv & ->).
  { destruct (F64.ltb v _) eqn:E1; [exists 15; split; [by constructor | lia]|].
    destruct (F64.gtb v _) eqn:E2; [exists (-10); split; [by constructor | lia]|].
    exists 5. split; [by constructor | lia]. }
  assert (exists a_a, age_adjustment age a_a /\
            forall s, (if (5 <=? age) && (age <=? 20) then s + 20
                       else if age <? 5 then s + 10
                       else if age >? 40 then s - 15 else s) = s + a_a)
    as (a_a & Ha & Ea).
  { destruct (Z.leb_spec 5 age), (Z.leb_spec age 20); cbn [andb].
    1: exists 20; split; [constructor; lia | intros; lia].
    all: destruct (Z.ltb_spec age 5);
      [exists 10; split; [constructor; lia | intros; lia]|].
    all: rewrite Z.gtb_ltb; destruct (Z.ltb_spec 40 age);
      [exists (-15); split; [constructor; lia | intros; lia]
      |exists 0; split; [constructor; lia | intros; lia]]. }
  assert (exists a_o, ownership_adjustment o a_o /\
            forall s, (if eq_str o "Individual" then s + 5
                       else if eq_str o "LLC" || eq_str o "Corporation" then s + 10
                       else s) = s + a_o)
    as (a_o & Ho & Eo).
  { destruct (eq_str o "Individual") eqn:E1.
    { exists 5. split; [constructor; by apply eq_str_true | intros; lia]. }
    destruct (eq_str o "LLC") eqn:E2; cbn [orb].
    { exists 10. split; [|intros; lia].
      apply oa_company. left. by apply eq_str_true. }
    destruct (eq_str o "Corporation") eqn:E3.
    { exists 10. split; [|intros; lia].
      apply oa_company. right. by apply eq_str_true. }
    exists 0. split; [|intros; lia].
    apply oa_other; by apply eq_str_false. }
  assert (exists a_f, flood_adjustment f a_f /\
            forall s, (if eq_str f "High" || eq_str f "Medium" then s - 20
                       else if eq_str f "Low" then s + 10 else s) = s + a_f)
    as (a_f & Hf & Ef).
  { destruct (eq_str f "High") eqn:E1; cbn [orb].
    { exists (-20). split; [|intros; lia].
      apply fa_high. left. by apply eq_str_true. }
    destruct (eq_str f "Medium") eqn:E2.
    { exists (-20). split; [|intros; lia].
      apply fa_high. right. by apply eq_str_true. }
    destruct (eq_str f "Low") eqn:E3.
    { exists 10. split; [|intros; lia].
      apply fa_low. by apply eq_str_true. }
    exists 0. split; [|intros; lia].
    apply fa_other; by apply eq_str_false. }
  exists a_v, a_a, a_o, a_f. repeat (split; [assumption|]).
  cbv zeta. rewrite Ef, Eo, Ea. lia.
Qed.

Section Scorer.
Context `{PyRuntime}.

Lemma bind_Ok_inv {A B} (m : res A) (f : A -> res B) (b : B) :
  m ≫= f = Ok b -> exists a, m = Ok a /\ f a = Ok b.
Proof. destruct m as [a|e]; [by exists a | discriminate]. Qed.

(** What a returned analysis was computed from. *)
Lemma rule_based_analysis_inv (prop : record) (r : analysis) :
  _rule_based_analysis prop = Ok r ->
  let ownership := get prop "ownership_type" (PStr "Unknown") in
  let flood_risk := get prop "flood_risk" (PStr "Unknown") in
  let score := compute_score (valuation r) (property_age r) ownership flood_risk in
  py_float (py_or (get prop "primary_valuation" (PInt 0)) (PInt 0)) = Ok (valuation r) /\
  py_int (py_or (get prop "property_age" (PInt 0)) (PInt 0)) = Ok (property_age r) /\
  investment_score r = score /\
  classification r = (classify score).1 /\
  confidence r = F64.round2 (cap (classify score).2) /\
  risk_level r = risk_of score /\
  _generate_summary prop (classify score).1 score (valuation r) (property_age r)
    ownership flood_risk (get prop "property_address_city" (PStr "Unknown City"))
  = Ok (summary r) /\
  insights r = _generate_insights prop (classify score).1 score (valuation r)
                 (property_age r) ownership flood_risk.
Proof.
  unfold _rule_based_analysis. intros E.
  apply bind_Ok_inv in E as (v & Ev & E).
  apply bind_Ok_inv in E as (age & Ea & E).
  destruct (classify _) as [c conf] eqn:Ec.
  apply bind_Ok_inv in E as (s & Es & E).
  injection E as <-.
  cbv beta iota zeta delta [valuation property_age investment_score classification
    confidence risk_level summary insights].
  rewrite Ec. repeat split; assumption.
Qed.

(** The summary is produced whenever the ownership type is a string. *)
Lemma generate_summary_ok (prop : record) (c : string) (score : Z)
    (v : spec_float) (age : Z) (o : string) (flood_risk city : pyval) :
  exists s, _generate_summary prop c score v age (PStr o) flood_risk city = Ok s.
Proof.
  unfold _generate_summary.
  destruct (if String.eqb c "Buy" then _ else _) as [sentiment action].
  cbn [py_lower mbind res_bind].
  destruct (in_strs flood_risk ["High"; "Medium"]) eqn:Ef.
  - assert (exists f, flood_risk = PStr f) as [f ->].
    { destruct flood_risk; try discriminate Ef. by eexists. }
    cbn [py_lower mbind res_bind]. by eexists.
  - destruct (eq_str flood_risk "Low"); cbn [mbind res_bind]; by eexists.
Qed.

(** The analysis returns whenever the valuation and the age convert and
    the ownership type is a string (or absent). *)
Lemma rule_based_analysis_ok (prop : record) (v : spec_float) (age : Z) (o : string) :
  py_float (py_or (get prop "primary_valuation" (PInt 0)) (PInt 0)) = Ok v ->
  py_int (py_or (get prop "property_age" (PInt 0)) (PInt 0)) = Ok age ->
  get prop "ownership_type" (PStr "Unknown") = PStr o ->
  exists r, _rule_based_analysis prop = Ok r /\
            valuation r = v /\ property_age r = age /\
            investment_score r
            = compute_score v age (PStr o) (get prop "flood_risk" (PStr "Unknown")).
Proof.
  intros Ev Ea Eo. unfold _rule_based_analysis. rewrite Ev, Ea, Eo.
  cbn [mbind res_bind].
  destruct (classify _) as [c conf].
  destruct (generate_summary_ok prop c
              (compute_score v age (PStr o) (get prop "flood_risk" (PStr "Unknown")))
              v age o (get prop "flood_risk" (PStr "Unknown"))
              (get prop "property_address_city" (PStr "Unknown City"))) as [s ->].
  cbn [mbind res_bind]. eexists. split; [reflexivity|]. done.
Qed.

(** The score of a returned analysis, by the table. *)
Lemma analysis_score_table (prop : record) (r : analysis) :
  _rule_based_analysis prop = Ok r ->
  exists a_v a_a a_o a_f,
    valuation_adjustment (valuation r) a_v /\
    age_adjustment (property_age r) a_a /\
    ownership_adjustment (get prop "ownership_type" (PStr "Unknown")) a_o /\
    flood_adjustment (get prop "flood_risk" (PStr "Unknown")) a_f /\
    investment_score r = 50 + a_v + a_a + a_o + a_f.
Proof.
  intros E. apply rule_based_analysis_inv in E as (_ & _ & Es & _).
  destruct (compute_score_table (valuation r) (property_age r)
              (get prop "ownership_type" (PStr "Unknown"))
              (get prop "flood_risk" (PStr "Unknown")))
    as (a_v & a_a & a_o & a_f & Hv & Ha & Ho & Hf & Hs).
  exists a_v, a_a, a_o, a_f. rewrite Es, Hs. done.
Qed.

(** C1.  Whenever the rule-based analysis returns, its investment score
    is 50 plus the adjustments of the table: one for the valuation, one for
    the age, one for the ownership type and one for the flood risk, each
    read off the value the analysis extracted from the record. *)
Theorem score_is_base_plus_adjustments (prop : record) (r : analysis) :
  _rule_based_analysis prop = Ok r ->
  exists a_v a_a a_o a_f,
    valuation_adjustment (valuation r) a_v /\
    age_adjustment (property_age r) a_a /\
    ownership_adjustment (get prop "ownership_type" (PStr "Unknown")) a_o /\
    flood_adjustment (get prop "flood_risk" (PStr "Unknown")) a_f /\
    investment_score r = 50 + a_v + a_a + a_o + a_f /\
    py_float (py_or (get prop "primary_valuation" (PInt 0)) (PInt 0)) = Ok (valuation r) /\
    py_int (py_or (get prop "property_age" (PInt 0)) (PInt 0)) = Ok (property_age r).
Proof.
  intros E. apply rule_based_analysis_inv in E as (Ev & Ea & Es & _).
  destruct (compute_score_table (valuation r) (property_age r)
              (get prop "ownership_type" (PStr "Unknown"))
              (get prop "flood_risk" (PStr "Unknown")))
    as (a_v & a_a & a_o & a_f & Hv & Ha & Ho & Hf & Hs).
  exists a_v, a_a, a_o, a_f. rewrite Es, Hs. done.
Qed.

(** The score of any four inputs lies between 5 and 105. *)
Lemma compute_score_bounds (v : spec_float) (age : Z) (o f : pyval) :
  5 <= compute_score v age o f <= 105.
Proof.
  destruct (compute_score_table v age o f)
    as (a_v & a_a & a_o & a_f & Hv & Ha & Ho & Hf & ->).
  destruct Hv, Ha, Ho, Hf; lia.
Qed.

Lemma analysis_score_bounds (prop : record) (r : analysis) :
  _rule_based_analysis prop = Ok r -> 5 <= investment_score r <= 105.
Proof.
  intros E. apply rule_based_analysis_inv in E as (_ & _ & -> & _).
  apply compute_score_bounds.
Qed.

(** C8.  The investment score of every returned analysis lies in
    [5, 105]; and 105, above the nominal bound of 100, is returned for a
    valuation below 250,000, an age between 5 and 20, "LLC" ownership and
    "Low" flood risk. *)
Theorem score_between_5_and_105 :
  (forall prop r, _rule_based_analysis prop = Ok r ->
                  5 <= investment_score r <= 105) /\
  (exists r, _rule_based_analysis Example.best_case = Ok r /\
             investment_score r = 105 /\
             F64.ltb (valuation r) (F64.of_Z 250000) = true /\
             5 <= property_age r <= 20 /\
             get Example.best_case "ownership_type" (PStr "Unknown") = PStr "LLC" /\
             get Example.best_case "flood_risk" (PStr "Unknown") = PStr "Low").
Proof.
  split.
  - intros prop r E. apply rule_based_analysis_inv in E as (_ & _ & -> & _).
    apply compute_score_bounds.
  - destruct (rule_based_analysis_ok Example.best_case (F64.of_Z 200000) 10 "LLC")
      as (r & E & Ev & Ea & Es); [reflexivity..|].
    exists r. rewrite Ev, Ea, Es. split; [exact E|]. by vm_compute.
Qed.

(** C5 (as amended).  The score is the plain sum of the table, without a
    clamp, and the penalties cannot take it below 5: every returned score
    is at least 5, and 5 is returned for a valuation above 750,000, an age
    above 40, an unscored ownership type and a high flood risk. *)
Theorem lowest_score_is_5 :
  (forall prop r, _rule_based_analysis prop = Ok r -> 5 <= investment_score r) /\
  (exists r, _rule_based_analysis Example.worst_case = Ok r /\
             investment_score r = 5 /\
             F64.gtb (valuation r) (F64.of_Z 750000) = true /\
             40 < property_age r /\
             get Example.worst_case "flood_risk" (PStr "Unknown") = PStr "High").
Proof.
  split.
  - intros prop r E. apply rule_based_analysis_inv in E as (_ & _ & -> & _).
    apply compute_score_bounds.
  - destruct (rule_based_analysis_ok Example.worst_case (F64.of_Z 900000) 45 "Trust")
      as (r & E & Ev & Ea & Es); [reflexivity..|].
    exists r. rewrite Ev, Ea, Es. split; [exact E|]. by vm_compute.
Qed.

End Scorer.

(** C5 (as stated) fails: no runtime and no record give a negative score. *)
Lemma no_negative_score :
  ~ exists (R : PyRuntime) (prop : record) (r : analysis),
      _rule_based_analysis prop = Ok r /\ investment_score r < 0.
Proof.
  intros (R & prop & r & E & L).
  apply rule_based_analysis_inv in E as (_ & _ & Es & _).
  pose proof (compute_score_bounds (valuation r) (property_age r)
                (get prop "ownership_type" (PStr "Unknown"))
                (get prop "flood_risk" (PStr "Unknown"))).
  lia.
Qed.

Lemma lowest_score_is_5_witness :
  exists r, _rule_based_analysis (H := Example.runtime) Example.mid_case = Ok r /\
            5 <= investment_score r.
Proof.
  destruct (_rule_based_analysis (H := Example.runtime) Example.mid_case)
    as [r|e] eqn:E; [|vm_compute in E; discriminate E].
  exists r. split; [reflexivity|].
  exact (proj1 (lowest_score_is_5 (H := Example.runtime)) Example.mid_case r E).
Defined.

Lemma score_is_base_plus_adjustments_witness :
  exists r, _rule_based_analysis (H := Example.runtime) Example.mid_case = Ok r /\
    exists a_v a_a a_o a_f,
      valuation_adjustment (valuation r) a_v /\
      age_adjustment (property_age r) a_a /\
      ownership_adjustment (get Example.mid_case "ownership_type" (PStr "Unknown")) a_o /\
      flood_adjustment (get Example.mid_case "flood_risk" (PStr "Unknown")) a_f /\
      investment_score r = 50 + a_v + a_a + a_o + a_f.
Proof.
  destruct (_rule_based_analysis (H := Example.runtime) Example.mid_case)
    as [r|e] eqn:E; [|vm_compute in E; discriminate E].
  exists r. split; [reflexivity|].
  destruct (score_is_base_plus_adjustments (H := Example.runtime) Example.mid_case r E)
    as (a_v & a_a & a_o & a_f & Hv & Ha & Ho & Hf & Hs & _).
  exists a_v, a_a, a_o, a_f. repeat split; assumption.
Defined.

Lemma score_between_5_and_105_witness :
  exists r, _rule_based_analysis (H := Example.runtime) Example.worst_case = Ok r /\
            5 <= investment_score r <= 105.
Proof.
  destruct (_rule_based_analysis (H := Example.runtime) Example.worst_case)
    as [r|e] eqn:E; [|vm_compute in E; discriminate E].
  exists r. split; [reflexivity|].
  exact (proj1 (score_between_5_and_105 (H := Example.runtime)) Example.worst_case r E).
Defined.

(* --------------------------------------------------------------------- *)
(** ** Classification, confidence and risk level *)
(* --------------------------------------------------------------------- *)

Lemma Z_range_spec (lo s : Z) (n : nat) :
  lo <= s < lo + Z.of_nat n -> In s (Z_range lo n).
Proof.
  intros B. unfold Z_range. apply in_map_iff.
  exists (Z.to_nat (s - lo)). split; [lia|]. apply in_seq. lia.
Qed.

(** On every score from 5 to 105, the rounded and capped confidence lies
    between 0 and 0.95. *)
Lemma confidence_checked_on_range :
  forallb (fun s =>
             let c := F64.round2 (cap (classify s).2) in
             F64.leb (F64.of_Z 0) c && F64.leb c c_0_95)
          (Z_range 5 101) = true.
Proof. vm_compute. reflexivity. Qed.

Lemma confidence_in_range (s : Z) :
  5 <= s <= 105 ->
  let c := F64.round2 (cap (classify s).2) in
  F64.leb (F64.of_Z 0) c = true /\ F64.leb c c_0_95 = true.
Proof.
  intros B. pose proof confidence_checked_on_range as C.
  rewrite forallb_forall in C. specialize (C s (Z_range_spec 5 s 101 ltac:(lia))).
  by apply andb_true_iff in C.
Qed.

(** The cap never raises a confidence: it returns its argument, or 0.95
    when the argument is above 0.95. *)
Lemma cap_only_lowers (c : spec_float) :
  (F64.ltb c_0_95 c = true /\ cap c = c_0_95) \/
  (F64.ltb c_0_95 c = false /\ cap c = c).
Proof. unfold cap. destruct (F64.ltb c_0_95 c); [left | right]; done. Qed.

Section Classification.
Context `{PyRuntime}.

(** C2 (as amended).  For a returned analysis of score [s]: from 70 on
    the classification is "Buy", from 50 to 69 it is "Hold", below 50 it is
    "Watch"; the risk level is "Low", "Medium", "High" on the same
    thresholds; the confidence computed is 0.75 + (s - 70) * 0.01,
    0.60 + (s - 50) * 0.005 or 0.50 + s * 0.002, capped at 0.95, and the
    confidence returned is that number rounded to two decimals; the
    returned confidence lies between 0 and 0.95. *)
Theorem classification_confidence_risk (prop : record) (r : analysis) :
  _rule_based_analysis prop = Ok r ->
  let s := investment_score r in
  (70 <= s ->
   classification r = "Buy" /\ risk_level r = "Low" /\
   confidence r
   = F64.round2 (cap (F64.add (F64.of_ratio 75 100)
                        (F64.mul (F64.of_Z (s - 70)) (F64.of_ratio 1 100))))) /\
  (50 <= s <= 69 ->
   classification r = "Hold" /\ risk_level r = "Medium" /\
   confidence r
   = F64.round2 (cap (F64.add (F64.of_ratio 60 100)
                        (F64.mul (F64.of_Z (s - 50)) (F64.of_ratio 5 1000))))) /\
  (s < 50 ->
   classification r = "Watch" /\ risk_level r = "High" /\
   confidence r
   = F64.round2 (cap (F64.add (F64.of_ratio 50 100)
                        (F64.mul (F64.of_Z s) (F64.of_ratio 2 1000))))) /\
  F64.leb (F64.of_Z 0) (confidence r) = true /\
  F64.leb (confidence r) (F64.of_ratio 95 100) = true.
Proof.
  intros E s.
  pose proof (analysis_score_bounds prop r E) as B.
  apply rule_based_analysis_inv in E as (_ & _ & Es & Ec & Econf & Er & _).
  fold s in B. rewrite <- Es in Ec, Econf, Er. fold s in Ec, Econf, Er.
  rewrite Ec, Er, Econf. unfold classify, risk_of.
  repeat split.
  1-3: destruct (Z.geb_spec s 70); [reflexivity | lia].
  1-3: destruct (Z.geb_spec s 70); [lia|];
       destruct (Z.geb_spec s 50); [reflexivity | lia].
  1-3: destruct (Z.geb_spec s 70); [lia|];
       destruct (Z.geb_spec s 50); [lia | reflexivity].
  all: apply (confidence_in_range s B).
Qed.

End Classification.

(** C2 (as stated) fails on the returned confidence: a mid-range valuation
    and an age of 30 score 55 and classify as "Hold"; the formula gives
    0.60 + 5 * 0.005 = 0.625, the analysis returns 0.62. *)
Lemma returned_confidence_is_rounded :
  exists r, _rule_based_analysis (H := Example.runtime) Example.mid_case = Ok r /\
            investment_score r = 55 /\
            classification r = "Hold" /\
            confidence r = F64.of_ratio 62 100 /\
            confidence r
            <> cap (F64.add (F64.of_ratio 60 100)
                      (F64.mul (F64.of_Z (55 - 50)) (F64.of_ratio 5 1000))).
Proof.
  destruct (_rule_based_analysis (H := Example.runtime) Example.mid_case)
    as [r|e] eqn:E; [|vm_compute in E; discriminate E].
  exists r. split; [reflexivity|].
  vm_compute in E. injection E as <-. vm_compute.
  repeat split. discriminate.
Qed.

Lemma classification_confidence_risk_witness :
  exists r, _rule_based_analysis (H := Example.runtime) Example.best_case = Ok r /\
            classification r = "Buy" /\ risk_level r = "Low" /\
            F64.leb (confidence r) (F64.of_ratio 95 100) = true.
Proof.
  destruct (_rule_based_analysis (H := Example.runtime) Example.best_case)
    as [r|e] eqn:E; [|vm_compute in E; discriminate E].
  exists r. split; [reflexivity|].
  destruct (classification_confidence_risk (H := Example.runtime) Example.best_case r E)
    as (Hbuy & _ & _ & _ & Hle).
  destruct Hbuy as (Hc & Hr & _).
  { vm_compute in E. injection E as <-. vm_compute. discriminate. }
  repeat split; assumption.
Defined.

(* --------------------------------------------------------------------- *)
(** ** A missing age *)
(* --------------------------------------------------------------------- *)

Lemma contains_app_l (k a b : string) :
  contains k a = true -> contains k (a +:+ b) = true.
Proof.
  rewrite !contains_occurs. intros (pre & post & ->).
  exists pre, (post +:+ b). by rewrite !string_app_assoc.
Qed.

Lemma contains_app_r (k a b : string) :
  contains k b = true -> contains k (a +:+ b) = true.
Proof.
  rewrite !contains_occurs. intros (pre & post & ->).
  exists (a +:+ pre), post. by rewrite !string_app_assoc.
Qed.

Lemma contains_prefix (k b : string) : contains k (k +:+ b) = true.
Proof. apply contains_occurs. by exists "", b. Qed.

Section MissingAge.
Context `{PyRuntime}.

(** An age that is not positive is narrated as new construction. *)
Lemma summary_new_construction (prop : record) (c : string) (score : Z)
    (v : spec_float) (age : Z) (o f city : pyval) (s : string) :
  age <= 0 ->
  _generate_summary prop c score v age o f city = Ok s ->
  contains "Built new construction" s = true.
Proof.
  intros A. unfold _generate_summary.
  destruct (Z.gtb_spec age 0) as [?|_]; [lia|].
  destruct (if String.eqb c "Buy" then _ else _) as [sentiment action].
  intros E. apply bind_Ok_inv in E as (lo & _ & E).
  apply bind_Ok_inv in E as (s' & E' & E). injection E as <-.
  apply contains_app_l.
  assert (contains "Built new construction"
            ((action +:+ " a valuation of "
              +:+ (if F64.gtb v (F64.of_Z 0) then "$" +:+ format_comma_0f v
                   else "undisclosed")
              +:+ " in " +:+ py_str city +:+ ". ")
             +:+ ("Built " +:+ "new construction" +:+ ", this " +:+ lo
                  +:+ "-owned property is a " +:+ sentiment +:+ ". ")) = true) as C.
  { apply contains_app_r.
    apply (contains_prefix "Built new construction"
             (", this " +:+ lo +:+ "-owned property is a " +:+ sentiment +:+ ". ")). }
  destruct (in_strs f ["High"; "Medium"]).
  - apply bind_Ok_inv in E' as (fl & _ & E'). injection E' as <-.
    by apply contains_app_l.
  - destruct (eq_str f "Low"); injection E' as <-; [by apply contains_app_l | exact C].
Qed.

(** C9.  When the record has no [property_age], or has it as [None] or as
    0, a returned analysis has age 0, its score carries the +10 of an age
    below 5 (next to the adjustments of the other three dimensions), and
    its summary says "Built new construction". *)
Theorem missing_age_is_new_construction (prop : record) (r : analysis) :
  prop !! "property_age" = None \/
  prop !! "property_age" = Some PNone \/
  prop !! "property_age" = Some (PInt 0) ->
  _rule_based_analysis prop = Ok r ->
  property_age r = 0 /\
  age_adjustment (property_age r) 10 /\
  (exists a_v a_o a_f,
     valuation_adjustment (valuation r) a_v /\
     ownership_adjustment (get prop "ownership_type" (PStr "Unknown")) a_o /\
     flood_adjustment (get prop "flood_risk" (PStr "Unknown")) a_f /\
     investment_score r = 50 + a_v + 10 + a_o + a_f) /\
  contains "Built new construction" (summary r) = true.
Proof.
  intros A E.
  assert (property_age r = 0) as E0.
  { apply rule_based_analysis_inv in E as (_ & Ea & _).
    unfold get in Ea.
    destruct A as [A|[A|A]]; rewrite A in Ea; cbn in Ea; congruence. }
  split; [exact E0|]. split; [rewrite E0; constructor; lia|]. split.
  - destruct (analysis_score_table prop r E)
      as (a_v & a_a & a_o & a_f & Hv & Ha & Ho & Hf & Hs).
    exists a_v, a_o, a_f. repeat (split; [assumption|]).
    rewrite E0 in Ha. assert (a_a = 10) as -> by (inversion Ha; lia). exact Hs.
  - apply rule_based_analysis_inv in E as (_ & _ & _ & _ & _ & _ & Es & _).
    eapply summary_new_construction; [|exact Es]. lia.
Qed.

End MissingAge.

Lemma missing_age_is_new_construction_witness :
  exists r, _rule_based_analysis (H := Example.runtime) ∅ = Ok r /\
            property_age r = 0 /\
            contains "Built new construction" (summary r) = true.
Proof.
  destruct (_rule_based_analysis (H := Example.runtime) ∅)
    as [r|e] eqn:E; [|vm_compute in E; discriminate E].
  exists r. split; [reflexivity|].
  destruct (missing_age_is_new_construction (H := Example.runtime) ∅ r)
    as (H0 & _ & _ & Hs); [left; reflexivity | exact E |].
  split; assumption.
Defined.

(* --------------------------------------------------------------------- *)
(** ** Batch analysis *)
(* --------------------------------------------------------------------- *)

(** C6.  The batch analysis of no record returns, in either mode, the
    empty result: no property analysed, classification "Unknown",
    confidence 0.0 and no insight. *)
Theorem analyze_batch_empty `{PyRuntime} (use_llm : bool) :
  exists b, analyze_batch use_llm [] = Ok b /\
            properties_analyzed b = 0 /\
            batch_classification b = "Unknown" /\
            batch_confidence b = S754_zero false /\
            batch_insights b = [] /\
            batch_summary b = "No properties provided for analysis." /\
            breakdown b = None /\ average_valuation b = None.
Proof. eexists. split; [reflexivity|]. done. Qed.

(* --------------------------------------------------------------------- *)
(** ** Batch signals *)
(* --------------------------------------------------------------------- *)

Import SignalComputer.

Section BatchSignals.
Context `{PyRuntime}.

Lemma compute_batch_from_length (i : nat) (properties : list record) :
  length (compute_batch_from i properties).1 = length properties.
Proof.
  revert i. induction properties as [|p rest IH]; intros i; [reflexivity|].
  cbn [compute_batch_from]. specialize (IH (S i)).
  destruct (compute_batch_from (S i) rest) as [results warnings].
  destruct (derive p); cbn in *; by rewrite IH.
Qed.

Lemma compute_batch_from_lookup (i j : nat) (properties : list record) (p : record) :
  properties !! j = Some p ->
  (compute_batch_from i properties).1 !! j
  = Some (match derive p with
          | Ok combined => combined
          | Raise _ => safe_default p
          end) /\
  (forall e, derive p = Raise e ->
             ((i + j)%nat, e) ∈ (compute_batch_from i properties).2).
Proof.
  revert i j. induction properties as [|q rest IH]; intros i j L; [discriminate L|].
  cbn [compute_batch_from]. specialize (IH (S i)).
  destruct (compute_batch_from (S i) rest) as [results warnings].
  destruct j as [|j].
  - injection L as ->. replace (i + 0)%nat with i by lia.
    destruct (derive p) as [c|e]; cbn; split; try done.
    intros e' [= <-]. apply list_elem_of_here.
  - cbn in L. destruct (IH j L) as [IH1 IH2].
    replace (i + S j)%nat with (S i + j)%nat by lia.
    destruct (derive q); cbn in *; split; try done.
    intros e' E. apply list_elem_of_further. by apply IH2.
Qed.

Lemma safe_default_hint (p : record) :
  safe_default p !! "classification_hint" = Some (PStr "Watch").
Proof. unfold safe_default. apply lookup_insert_eq. Qed.

Lemma safe_default_minimal (p : record) (k : string) (v : pyval) :
  minimal_signals !! k = Some v -> k <> "classification_hint" ->
  safe_default p !! k = Some v.
Proof.
  intros L N. unfold safe_default, update.
  rewrite lookup_insert_ne by done. by apply lookup_union_Some_l.
Qed.

Lemma safe_default_keeps (p : record) (k : string) (v : pyval) :
  p !! k = Some v -> minimal_signals !! k = None -> k <> "classification_hint" ->
  safe_default p !! k = Some v.
Proof.
  intros L M N. unfold safe_default, update.
  rewrite lookup_insert_ne by done. by rewrite lookup_union_r.
Qed.

(** C7.  A batch yields one output per input record.  A record whose
    derivation raises is not fatal: its output is the record itself under
    the minimal default signals, with classification hint "Watch", and the
    failure is reported as a warning; every other record gets its derived
    signals. *)
Theorem batch_survives_failures (properties : list record) :
  let '(results, warnings) := compute_batch_signals properties in
  length results = length properties /\
  forall (i : nat) (p : record),
    properties !! i = Some p ->
    (forall e, derive p = Raise e ->
       results !! i = Some (safe_default p) /\
       (i, e) ∈ warnings /\
       safe_default p !! "classification_hint" = Some (PStr "Watch") /\
       safe_default p !! "primary_valuation" = Some (PInt 0) /\
       safe_default p !! "valuation_band" = Some (PStr "Unknown") /\
       safe_default p !! "ownership_type" = Some (PStr "Unknown") /\
       safe_default p !! "absentee_owner" = Some (PBool false) /\
       safe_default p !! "property_age" = Some PNone /\
       safe_default p !! "age_category" = Some (PStr "Unknown") /\
       (forall k v, p !! k = Some v ->
                    minimal_signals !! k = None -> k <> "classification_hint" ->
                    safe_default p !! k = Some v)) /\
    (forall c, derive p = Ok c -> results !! i = Some c).
Proof.
  unfold compute_batch_signals.
  pose proof (compute_batch_from_length 0 properties) as HL.
  pose proof (compute_batch_from_lookup 0) as HK.
  destruct (compute_batch_from 0 properties) as [results warnings] eqn:EB.
  split; [exact HL|]. intros i p L.
  specialize (HK i properties p L). rewrite EB in HK.
  destruct HK as [HK1 HK2]. split.
  - intros e E. rewrite E in HK1.
    split; [exact HK1|]. split; [by apply HK2|].
    split; [apply safe_default_hint|].
    do 6 (split; [by apply safe_default_minimal|]).
    intros k v. apply safe_default_keeps.
  - intros c E. by rewrite E in HK1.
Qed.

End BatchSignals.

Lemma batch_survives_failures_witness :
  derive (H := Example.runtime) ∅ = Raise TypeError /\
  (compute_batch_signals (H := Example.runtime) [∅]).1 !! 0%nat = Some (safe_default ∅).
Proof.
  assert (derive (H := Example.runtime) ∅ = Raise TypeError) as E
    by (vm_compute; reflexivity).
  split; [exact E|].
  pose proof (batch_survives_failures (H := Example.runtime) [∅]) as B.
  destruct (compute_batch_signals (H := Example.runtime) [∅]) as [results warnings].
  destruct B as [_ B].
  destruct (B 0%nat ∅ eq_refl) as [B1 _].
  exact (proj1 (B1 TypeError E)).
Defined.

(* --------------------------------------------------------------------- *)
(** ** The payload sent to the oracle *)
(* --------------------------------------------------------------------- *)

Import AIScoutGPT.

Lemma filter_signal_lookup (signal : record) (k : string) :
  _filter_signal [] signal !! k
  = if decide (k ∈ allow) then signal !! k else None.
Proof.
  unfold _filter_signal.
  destruct (signal !! k) as [v|] eqn:L.
  - case_decide as A.
    + by apply map_lookup_filter_Some.
    + apply map_lookup_filter_None. right. intros v' L' A'. by apply A.
  - replace (if decide (k ∈ allow) then None else None) with (@None pyval)
      by (by case_decide).
    apply map_lookup_filter_None. by left.
Qed.

(** A field outside the allow-set does not flow into the shaped signal. *)
Lemma filter_signal_ignores (signal : record) (k : string) (v : pyval) :
  k ∉ allow -> _filter_signal [] (<[k := v]> signal) = _filter_signal [] signal.
Proof.
  intros N. apply map_eq. intros j. rewrite !filter_signal_lookup.
  case_decide as A; [|reflexivity].
  rewrite lookup_insert_ne; [reflexivity|]. intros ->. by apply N.
Qed.

(** C10.  Without an input schema, every signal of the payload has its
    keys in the allow-set, with the values of the input record; a field
    outside the allow-set is absent from it; and setting such a field, in
    any record of the batch, to any value leaves the payload unchanged. *)
Theorem payload_is_allow_listed (signal_batch : list record) (ctx : option record) :
  let payload := call_scoutgpt_payload [] (Some signal_batch) ctx in
  (forall (i : nat) (shaped : record),
     signals payload !! i = Some shaped ->
     dom shaped ⊆ allow /\
     exists signal, signal_batch !! i = Some signal /\
       (forall k, k ∉ allow -> shaped !! k = None) /\
       (forall k, k ∈ allow -> shaped !! k = signal !! k)) /\
  (forall (i : nat) (signal : record) (k : string) (v : pyval),
     signal_batch !! i = Some signal -> k ∉ allow ->
     call_scoutgpt_payload [] (Some (<[i := <[k := v]> signal]> signal_batch)) ctx
     = payload).
Proof.
  unfold call_scoutgpt_payload. cbn [signals default from_option]. unfold id. split.
  - intros i shaped L. rewrite list_lookup_fmap in L.
    destruct (signal_batch !! i) as [signal|] eqn:Ls; [|discriminate L].
    change (Some (_filter_signal [] signal) = Some shaped) in L.
    apply (inj Some) in L. subst shaped. split.
    + intros k D. apply elem_of_dom in D as [v D].
      rewrite filter_signal_lookup in D. by case_decide.
    + exists signal. split; [reflexivity|]. split; intros k A;
        rewrite filter_signal_lookup; by case_decide.
  - intros i signal k v L N. f_equal.
    rewrite list_fmap_insert, filter_signal_ignores by done.
    apply list_insert_id. by rewrite list_lookup_fmap, L.
Qed.

Lemma payload_is_allow_listed_witness :
  call_scoutgpt_payload []
    (Some [<["owner_ssn" := PStr "secret"]> Example.best_case]) None
  = call_scoutgpt_payload [] (Some [Example.best_case]) None.
Proof.
  pose proof (payload_is_allow_listed [Example.best_case] None) as [_ P].
  apply (P 0%nat Example.best_case "owner_ssn" (PStr "secret") eq_refl).
  by vm_compute.
Defined.

(* ===================================================================== *)
(** * Further properties of the sources *)
(* ===================================================================== *)
(* --------------------------------------------------------------------- *)
(** ** Zone codes *)
(* --------------------------------------------------------------------- *)

(** X1.  A zone code is rated "High" exactly when it mentions "VE" or
    "HIGH" and none of "X", "MINIMAL", "AE", "A", "0.2%", "500"; the
    keyword "FLOODWAY" plays no part, since it contains "A". *)
Theorem zone_tier_high_iff (z : string) :
  zone_tier z = "High" <->
  (contains "VE" z = true \/ contains "HIGH" z = true) /\
  contains "X" z = false /\ contains "MINIMAL" z = false /\
  contains "AE" z = false /\ contains "A" z = false /\
  contains "0.2%" z = false /\ contains "500" z = false.
Proof.
  unfold zone_tier. cbn [existsb]. rewrite !orb_false_r.
  pose proof (floodway_has_A z) as F.
  destruct (contains "X" z), (contains "MINIMAL" z), (contains "AE" z),
    (contains "A" z), (contains "0.2%" z), (contains "500" z),
    (contains "FLOODWAY" z), (contains "VE" z), (contains "HIGH" z);
    cbn; try specialize (F eq_refl); split; try discriminate;
    try (intros ([?|?] & ? & ? & ? & ? & ? & ?); discriminate);
    try (intros _; repeat split; auto; fail).
Qed.

Section FloodZone.
Context `{PyRuntime}.

Lemma first_notna_none (row : record) (candidates : list string) :
  (forall c, In c candidates ->
             row !! c = None \/ exists v, row !! c = Some v /\ notna v = false) ->
  first_notna row candidates = None.
Proof.
  induction candidates as [|c rest IH]; intros A; [reflexivity|].
  cbn [first_notna].
  destruct (A c (or_introl eq_refl)) as [->|(v & -> & ->)];
    apply IH; intros c' I; apply A; by right.
Qed.

(** X2.  A row in which each of the five flood-zone columns is absent or
    holds a null ([None] or NaN) is rated "Unknown", whatever its other
    columns hold. *)
Theorem flood_risk_without_zone (row : record) :
  (forall c, In c flood_candidates ->
             row !! c = None \/ row !! c = Some PNone
             \/ row !! c = Some (PFloat S754_nan)) ->
  _flood_risk row = "Unknown".
Proof.
  intros A. unfold _flood_risk. rewrite first_notna_none; [reflexivity|].
  intros c I. destruct (A c I) as [E|[E|E]]; [by left|right; eauto..].
Qed.

End FloodZone.

Lemma flood_risk_without_zone_witness :
  _flood_risk (H := Example.runtime)
    (<["flood_zone" := PNone]> (<["city" := PStr "AUSTIN"]> ∅)) = "Unknown".
Proof.
  apply (flood_risk_without_zone (H := Example.runtime)).
  intros c I. cbn in I.
  destruct I as [<-|[<-|[<-|[<-|[<-|[]]]]]]; vm_compute; auto.
Defined.

(* --------------------------------------------------------------------- *)
(** ** Reconciling columns *)
(* --------------------------------------------------------------------- *)

Section Reconcile.
Context `{PyRuntime}.




Lemma ownership_scan_llc (row : record) (cols : list string) :
  ownership_scan row cols = "LLC" <->
  exists col v k, In col cols /\ row !! col = Some v /\ notna v = true /\
                  In k CORP_KEYWORDS /\
                  contains k (str_upper (py_str v)) = true.
Proof.
  induction cols as [|col rest IH]; cbn [ownership_scan].
  - split; [discriminate | by intros (? & ? & ? & [] & _)].
  - assert ((exists col' v k, In col' rest /\ row !! col' = Some v /\
               notna v = true /\ In k CORP_KEYWORDS /\
               contains k (str_upper (py_str v)) = true) ->
            exists col' v k, In col' (col :: rest) /\ row !! col' = Some v /\
               notna v = true /\ In k CORP_KEYWORDS /\
               contains k (str_upper (py_str v)) = true) as Up.
    { intros (c & v & k & I & R). exists c, v, k. split; [by right | exact R]. }
    destruct (row !! col) as [v|] eqn:L.
    + destruct (notna v && existsb _ CORP_KEYWORDS) eqn:T.
      * split; [intros _ | done].
        apply andb_true_iff in T as [N T].
        apply existsb_exists in T as (k & I & C).
        exists col, v, k. repeat split; try done. by left.
      * rewrite IH. split; [exact Up|].
        intros (c & v' & k & [<-|I] & L' & N & I' & C); [|by eauto 10].
        rewrite L in L'. injection L' as <-. rewrite N, andb_true_l in T.
        assert (existsb (fun k => contains k (str_upper (py_str v))) CORP_KEYWORDS
                = true) by (apply existsb_exists; eauto).
        congruence.
    + rewrite IH. split; [exact Up|].
      intros (c & v' & k & [<-|I] & L' & R); [congruence | by eauto 10].
Qed.

Lemma ownership_scan_labels (row : record) (cols : list string) :
  ownership_scan row cols = "LLC" \/ ownership_scan row cols = "Individual".
Proof.
  induction cols as [|col rest IH]; cbn [ownership_scan]; [by right|].
  destruct (row !! col) as [v|]; [|exact IH].
  destruct (notna v && _); [by left | exact IH].
Qed.

(** X4.  The ownership type of a row is "LLC" exactly when one of the four
    owner columns is present, not null, and its upper-cased text contains
    one of the corporate keywords; in every other case it is
    "Individual". *)
Theorem ownership_type_from_names_spec (row : record) :
  (_ownership_type_from_names row = "LLC" <->
   exists col v k, In col owner_cols /\ row !! col = Some v /\ notna v = true /\
                   In k CORP_KEYWORDS /\
                   contains k (str_upper (py_str v)) = true) /\
  (_ownership_type_from_names row = "LLC" \/
   _ownership_type_from_names row = "Individual").
Proof. split; [apply ownership_scan_llc | apply ownership_scan_labels]. Qed.

Lemma property_age_scan_source (row : record) (cols : list string) (a : Z) :
  property_age_scan row cols = Some a ->
  exists col v year, In col cols /\ row !! col = Some v /\ notna v = true /\
                     int_of_string (str_strip (py_str v)) = Some year /\
                     1800 < year <= current_year /\ a = current_year - year.
Proof.
  induction cols as [|col rest IH]; cbn [property_age_scan]; [discriminate|].
  intros E.
  assert (property_age_scan row rest = Some a ->
          exists col' v year, In col' (col :: rest) /\ row !! col' = Some v /\
            notna v = true /\ int_of_string (str_strip (py_str v)) = Some year /\
            1800 < year <= current_year /\ a = current_year - year) as Up.
  { intros E'. destruct (IH E') as (c & v & y & I & R).
    exists c, v, y. split; [by right | exact R]. }
  destruct (row !! col) as [v|] eqn:L; [|by apply Up].
  destruct (notna v) eqn:N; [|by apply Up].
  destruct (int_of_string _) as [year|] eqn:P; [|by apply Up].
  destruct (Z.ltb_spec 1800 year), (Z.leb_spec year current_year);
    cbn [andb] in E; try (by apply Up).
  injection E as <-. exists col, v, year.
  repeat split; try done; try (by left); lia.
Qed.

(** X5.  A property age, when there is one, is computed from a year-built
    column of the row holding a year after 1800 and not after the current
    year: it is never negative and stays below [current year - 1800]. *)
Theorem property_age_bounds (row : record) (a : Z) :
  _property_age row = Some a ->
  0 <= a < current_year - 1800 /\
  exists col v year, In col year_cols /\ row !! col = Some v /\
                     int_of_string (str_strip (py_str v)) = Some year /\
                     a = current_year - year.
Proof.
  intros E. apply property_age_scan_source in E
    as (col & v & year & I & L & N & P & B & ->).
  split; [lia|]. by exists col, v, year.
Qed.

End Reconcile.


Lemma property_age_bounds_witness :
  0 <= 35 < @current_year Example.year_runtime - 1800.
Proof.
  apply (property_age_bounds (H := Example.year_runtime)
           (<["year_built" := PStr "1990"]> ∅) 35).
  vm_compute. reflexivity.
Defined.

(* --------------------------------------------------------------------- *)
(** ** The classification hint of a row *)
(* --------------------------------------------------------------------- *)

(** X6.  The classification hint of a row is "Buy", "Hold" or "Watch"
    whenever the valuation is a number and the age is [None] or a number;
    in every other case (a valuation or an age that is [None] where a
    number is compared, or a string) the call raises [TypeError]. *)
Theorem classification_hint_outcome (row : record) :
  let val := get row "primary_valuation" (PInt 0) in
  let age := get row "property_age" PNone in
  (is_number val = true -> age = PNone \/ is_number age = true ->
   exists c, _classification_hint row = Ok c /\
             (c = "Buy" \/ c = "Hold" \/ c = "Watch")) /\
  (is_number val = false \/ (age <> PNone /\ is_number age = false) ->
   _classification_hint row = Raise TypeError).
Proof.
  intros val age. unfold _classification_hint. fold val. fold age.
  assert (forall s : Z, exists c,
            (if s >=? 70 then Ok "Buy" else if s >=? 50 then Ok "Hold" else Ok "Watch")
            = @Ok string c /\ (c = "Buy" \/ c = "Hold" \/ c = "Watch")) as Fin.
  { intros s. destruct (s >=? 70); [eauto|]. destruct (s >=? 50); eauto 6. }
  split.
  - intros Nv Na. unfold is_number in *.
    destruct (as_number val) as [v|]; [|discriminate Nv]. cbn [mbind res_bind].
    destruct Na as [->|Na].
    + cbn [mbind res_bind]. apply Fin.
    + destruct (as_number age) as [a|] eqn:Ea; [|discriminate Na].
      destruct age; try discriminate Ea; cbn [mbind res_bind];
        rewrite ?Ea; cbn [mbind res_bind];
        repeat (match goal with
                | |- context [if ?b then Ok _ else _] => destruct b
                end; cbn [mbind res_bind]); first [apply Fin | eauto 6].
  - unfold is_number. intros [Nv|[Na Nb]].
    + destruct val; try discriminate Nv; reflexivity.
    + destruct val; cbn [as_number mbind res_bind]; try reflexivity;
        destruct age; try discriminate Nb; try congruence; reflexivity.
Qed.

Lemma classification_hint_outcome_witness :
  _classification_hint (<["primary_valuation" := PStr "n/a"]> ∅) = Raise TypeError.
Proof.
  apply (classification_hint_outcome (<["primary_valuation" := PStr "n/a"]> ∅)).
  left. reflexivity.
Defined.

(* --------------------------------------------------------------------- *)
(** ** Signals of one record *)
(* --------------------------------------------------------------------- *)

Section RecordSignals.
Context `{PyRuntime}.

(** X8.  [safe_float] gives 0.0 for [None], for the empty string, for the
    string "None" and for any string that does not convert; it returns a
    float as it is; and the only exception that can leave it is
    [OverflowError], for an integer beyond the range of a float. *)
Theorem safe_float_outcome (v : pyval) :
  (v = PNone \/ v = PStr "" \/ v = PStr "None" -> safe_float v = Ok (S754_zero false)) /\
  (forall s, v = PStr s -> float_of_string s = None ->
             safe_float v = Ok (S754_zero false)) /\
  (forall x, v = PFloat x -> safe_float v = Ok x) /\
  (forall e, safe_float v = Raise e ->
             e = OverflowError /\ exists n, v = PInt n /\
               exists s, F64.of_Z n = S754_infinity s).
Proof.
  unfold safe_float. split; [|split; [|split]].
  - intros [-> | [-> | ->]]; reflexivity.
  - intros s -> P. destruct (_ || _); [reflexivity|]. cbn. by rewrite P.
  - by intros x ->.
  - intros e E. destruct v as [|b|n|x|s]; cbn in E; try discriminate E.
    + destruct (F64.of_Z n) eqn:Z; try discriminate E.
      injection E as <-. split; [reflexivity|]. exists n. eauto.
    + destruct (_ || _); [discriminate E|]. cbn in E.
      destruct (float_of_string s); discriminate E.
Qed.

(** X9.  The geometric flood risk of a record, when it is computed, is
    "Low", "Medium" or "High": this strategy never answers "Unknown". *)
Theorem compute_flood_risk_labels (property_data : record) (tier : string) :
  _compute_flood_risk property_data = Ok tier ->
  tier = "Low" \/ tier = "Medium" \/ tier = "High".
Proof.
  unfold _compute_flood_risk. intros E.
  apply bind_Ok_inv in E as (lat & _ & E).
  apply bind_Ok_inv in E as (lng & _ & E).
  apply bind_Ok_inv in E as (valuation & _ & E).
  apply bind_Ok_inv in E as (inner & Ei & E).
  destruct inner as [t|].
  - injection E as <-.
    destruct (_ && _); [|discriminate Ei].
    repeat match type of Ei with
           | match ?o with Some _ => _ | None => _ end = _ =>
               destruct o; [|discriminate Ei]
           | (if ?b then _ else _) = _ => destruct b
           end;
      injection Ei as <-; auto.
  - repeat match type of E with
           | (if ?b then _ else _) = _ => destruct b
           end;
      injection E as <-; auto.
Qed.

(** X10.  The light classification of a record is "Buy", "Hold" or
    "Watch".  It is "Buy" only for a band "high" or "premium" of an owner
    who is not absentee and an age below 25, and "Watch" only for an
    absentee owner in band "low" or "medium". *)
Theorem rule_based_classification_labels (p : record) (c : string) :
  _rule_based_classification p = Ok c ->
  exists age band,
    py_int (py_or (get p "property_age" PNone) (PInt 0)) = Ok age /\
    py_lower (py_or (get p "valuation_band" PNone) (PStr "")) = Ok band /\
    (c = "Buy" \/ c = "Hold" \/ c = "Watch") /\
    (c = "Buy" ->
     (band = "high" \/ band = "premium") /\
     truthy (get p "absentee_owner" PNone) = false /\ age < 25) /\
    (c = "Watch" ->
     (band = "low" \/ band = "medium") /\
     truthy (get p "absentee_owner" PNone) = true).
Proof.
  unfold _rule_based_classification. intros E.
  apply bind_Ok_inv in E as (val & _ & E).
  apply bind_Ok_inv in E as (age & Ea & E).
  apply bind_Ok_inv in E as (band & Eb & E).
  exists age, band. split; [exact Ea|]. split; [exact Eb|].
  destruct (String.eqb_spec band "high"), (String.eqb_spec band "premium"),
    (String.eqb_spec band "low"), (String.eqb_spec band "medium"),
    (truthy (get p "absentee_owner" PNone)),
    (truthy (get p "recent_sale" PNone)), (Z.ltb_spec age 25);
    cbn in E; injection E as <-; subst;
    repeat split; auto; try discriminate; try (intros; discriminate).
Qed.

End RecordSignals.

Lemma safe_float_outcome_witness :
  safe_float (H := Example.runtime) (PStr "None") = Ok (S754_zero false).
Proof.
  apply (proj1 (safe_float_outcome (H := Example.runtime) (PStr "None"))).
  right. right. reflexivity.
Defined.

Lemma compute_flood_risk_labels_witness :
  "Low" = "Low" \/ "Low" = "Medium" \/ "Low" = "High".
Proof.
  apply (compute_flood_risk_labels (H := Example.runtime) ∅ "Low").
  vm_compute. reflexivity.
Defined.

Lemma rule_based_classification_labels_witness :
  exists age band,
    py_int (H := Example.runtime)
      (py_or (get (<["valuation_band" := PStr "High"]> ∅) "property_age" PNone) (PInt 0))
    = Ok age /\
    py_lower (H := Example.runtime)
      (py_or (get (<["valuation_band" := PStr "High"]> ∅) "valuation_band" PNone) (PStr ""))
    = Ok band /\ age < 25.
Proof.
  destruct (rule_based_classification_labels (H := Example.runtime)
              (<["valuation_band" := PStr "High"]> ∅) "Buy")
    as (age & band & Ea & Eb & _ & Hbuy & _); [vm_compute; reflexivity|].
  exists age, band. split; [exact Ea|]. split; [exact Eb|].
  by apply Hbuy.
Defined.

(* --------------------------------------------------------------------- *)
(** ** Batches of records *)
(* --------------------------------------------------------------------- *)

Section Batches.
Context `{PyRuntime}.

Lemma risk_signals_need_year (property_data : record) (s : record) :
  truthy (get property_data "year_built" PNone) = false \/
  age_of_year_built (get property_data "year_built" PNone) = None ->
  _compute_risk_signals property_data <> Ok s.
Proof.
  intros C E. unfold _compute_risk_signals in E.
  apply bind_Ok_inv in E as (flood & _ & E).
  assert ((if truthy (get property_data "year_built" PNone)
           then age_of_year_built (get property_data "year_built" PNone)
           else None) = None) as R
    by (destruct C as [-> | ->]; [reflexivity | by destruct (truthy _)]).
  rewrite R in E.
  apply bind_Ok_inv in E as (age & Ea & _).
  unfold get in Ea.
  rewrite lookup_insert_ne, lookup_insert_eq in Ea by done. discriminate Ea.
Qed.

Lemma derive_needs_year (property_data : record) :
  truthy (get property_data "year_built" PNone) = false \/
  age_of_year_built (get property_data "year_built" PNone) = None ->
  exists e, derive property_data = Raise e.
Proof.
  intros C. destruct (derive property_data) as [c|e] eqn:E; [exfalso | by exists e].
  unfold derive in E. apply bind_Ok_inv in E as (signals & Es & _).
  unfold compute_property_signals in Es.
  apply bind_Ok_inv in Es as (valuation & _ & Es).
  apply bind_Ok_inv in Es as (ownership & _ & Es).
  apply bind_Ok_inv in Es as (risk & Er & _).
  by apply (risk_signals_need_year property_data risk).
Qed.

Lemma compute_batch_from_results (i : nat) (properties : list record) :
  (compute_batch_from i properties).1 = map batch_outcome properties.
Proof.
  revert i. induction properties as [|p rest IH]; intros i; [reflexivity|].
  cbn [compute_batch_from map]. specialize (IH (S i)).
  destruct (compute_batch_from (S i) rest) as [results warnings].
  unfold batch_outcome at 1. cbn in IH. destruct (derive p); cbn; by rewrite IH.
Qed.

Lemma compute_batch_from_warnings (j : nat) (properties : list record)
    (i : nat) (e : exn) :
  (i, e) ∈ (compute_batch_from j properties).2 <->
  exists k p, i = (j + k)%nat /\ properties !! k = Some p /\ derive p = Raise e.
Proof.
  revert j. induction properties as [|q rest IH]; intros j.
  - cbn. split; [by intros ?%elem_of_nil | by intros (? & ? & _ & ? & _)].
  - cbn [compute_batch_from]. specialize (IH (S j)).
    destruct (compute_batch_from (S j) rest) as [results warnings]. cbn in IH.
    assert ((exists k p, i = (S j + k)%nat /\ rest !! k = Some p /\ derive p = Raise e)
            -> exists k p, i = (j + k)%nat /\ (q :: rest) !! k = Some p
                           /\ derive p = Raise e) as Up.
    { intros (k & p & -> & L & D). exists (S k), p. split; [lia | done]. }
    destruct (derive q) as [c|e'] eqn:D; cbn.
    + rewrite IH. split; [exact Up|].
      intros ([|k] & p & -> & L & D').
      * injection L as <-. congruence.
      * exists k, p. split; [lia | done].
    + rewrite elem_of_cons, IH. split.
      * intros [[= -> ->]|R]; [|by apply Up].
        exists 0%nat, q. split; [lia | done].
      * intros ([|k] & p & -> & L & D').
        -- injection L as <-. left. f_equal; [lia | congruence].
        -- right. exists k, p. split; [lia | done].
Qed.

(** X7.  A record without a usable year built (no [year_built], a false
    one, or one that is not a year in (1800, current year]) never gets its
    derived signals: in any batch its output is the safe default, with
    classification hint "Watch", and a warning is printed for it. *)
Theorem batch_defaults_without_year (properties : list record) (i : nat) (p : record) :
  properties !! i = Some p ->
  truthy (get p "year_built" PNone) = false \/
  age_of_year_built (get p "year_built" PNone) = None ->
  (compute_batch_signals properties).1 !! i = Some (safe_default p) /\
  exists e, (i, e) ∈ (compute_batch_signals properties).2.
Proof.
  intros L C. destruct (derive_needs_year p C) as [e D].
  unfold compute_batch_signals. split.
  - rewrite compute_batch_from_results, list_lookup_fmap, L. cbn.
    unfold batch_outcome. by rewrite D.
  - exists e. apply compute_batch_from_warnings. by exists i, p.
Qed.

(** X11.  The records of a batch are treated one by one, in order: the
    results of two batches put end to end are the results of the first
    followed by those of the second, and no record gives no result. *)
Theorem batch_results_append (l1 l2 : list record) :
  (compute_batch_signals (l1 ++ l2)).1
  = ((compute_batch_signals l1).1 ++ (compute_batch_signals l2).1)%list /\
  (compute_batch_signals []).1 = [] /\
  (compute_batch_signals []).2 = [].
Proof.
  unfold compute_batch_signals. rewrite !compute_batch_from_results.
  split; [apply map_app | done].
Qed.

(** X12.  The warnings of a batch are exactly its failures: a warning
    names an index and an exception when, and only when, the derivation of
    the record at that index raised that exception. *)
Theorem batch_warnings_are_failures (properties : list record) (i : nat) (e : exn) :
  (i, e) ∈ (compute_batch_signals properties).2 <->
  exists p, properties !! i = Some p /\ derive p = Raise e.
Proof.
  unfold compute_batch_signals. rewrite compute_batch_from_warnings. split.
  - intros (k & p & -> & L & D). by exists p.
  - intros (p & L & D). by exists i, p.
Qed.

Lemma rule_based_classification_hints (p : record) (c : string) :
  _rule_based_classification p = Ok c -> c = "Buy" \/ c = "Hold" \/ c = "Watch".
Proof.
  unfold _rule_based_classification. intros E.
  apply bind_Ok_inv in E as (val & _ & E).
  apply bind_Ok_inv in E as (age & _ & E).
  apply bind_Ok_inv in E as (band & _ & E).
  repeat match type of E with
         | (if ?b then _ else _) = _ => destruct b
         end; injection E as <-; auto.
Qed.

(** X13.  When the derivation of a record succeeds, its output is the
    record merged with the computed signals: a computed signal overrides
    the input field of that name, every other input field is kept, and a
    classification hint "Buy", "Hold" or "Watch" is added. *)
Theorem derive_merges_signals (property_data combined : record) :
  derive property_data = Ok combined ->
  exists signals hint,
    compute_property_signals property_data = Ok signals /\
    combined !! "classification_hint" = Some (PStr hint) /\
    (hint = "Buy" \/ hint = "Hold" \/ hint = "Watch") /\
    (forall k, k <> "classification_hint" ->
               combined !! k = match signals !! k with
                               | Some v => Some v
                               | None => property_data !! k
                               end) /\
    dom property_data ⊆ dom combined.
Proof.
  unfold derive. intros E.
  apply bind_Ok_inv in E as (signals & Es & E).
  apply bind_Ok_inv in E as (hint & Eh & E). injection E as <-.
  exists signals, hint. split; [exact Es|].
  split; [apply lookup_insert_eq|].
  split; [by eapply rule_based_classification_hints|].
  assert (forall k, k <> "classification_hint" ->
            (<["classification_hint" := PStr hint]> (update property_data signals)) !! k
            = match signals !! k with
              | Some v => Some v
              | None => property_data !! k
              end) as M.
  { intros k N. rewrite lookup_insert_ne by done. unfold update.
    rewrite lookup_union. destruct (signals !! k), (property_data !! k); done. }
  split; [exact M|].
  intros k D. apply elem_of_dom in D as [v D]. apply elem_of_dom.
  destruct (decide (k = "classification_hint")) as [->|N].
  - rewrite lookup_insert_eq. eauto.
  - rewrite (M k N), D. destruct (signals !! k); eauto.
Qed.

End Batches.

Lemma batch_defaults_without_year_witness :
  (compute_batch_signals (H := Example.runtime)
     [<["party_owner1_name_full" := PStr "ACME LLC"]> ∅]).1 !! 0%nat
  = Some (safe_default (<["party_owner1_name_full" := PStr "ACME LLC"]> ∅)).
Proof.
  apply (batch_defaults_without_year (H := Example.runtime)
           [<["party_owner1_name_full" := PStr "ACME LLC"]> ∅] 0%nat
           (<["party_owner1_name_full" := PStr "ACME LLC"]> ∅) eq_refl).
  left. reflexivity.
Defined.

Lemma derive_merges_signals_witness :
  exists combined,
    derive (H := Example.year_runtime) (<["year_built" := PStr "1990"]> ∅) = Ok combined /\
    combined !! "year_built" = Some (PStr "1990").
Proof.
  assert (is_ok (derive (H := Example.year_runtime) (<["year_built" := PStr "1990"]> ∅)) = true)
    as O by (vm_compute; reflexivity).
  destruct (derive (H := Example.year_runtime) (<["year_built" := PStr "1990"]> ∅))
    as [combined|e] eqn:E; [|discriminate O].
  exists combined. split; [reflexivity|].
  destruct (derive_merges_signals (H := Example.year_runtime) _ _ E)
    as (signals & hint & Es & _ & _ & M & _).
  rewrite (M "year_built") by done.
  assert (compute_property_signals (H := Example.year_runtime) (<["year_built" := PStr "1990"]> ∅)
          ≫= (fun s => Ok (s !! "year_built")) = Ok None) as A
    by (vm_compute; reflexivity).
  rewrite Es in A. cbn [mbind res_bind] in A. injection A as ->. reflexivity.
Defined.

(* --------------------------------------------------------------------- *)
(** ** The analysis of one record *)
(* --------------------------------------------------------------------- *)

Lemma length_append {A} (l : list A) (x : A) : length (append l x) = S (length l).
Proof. unfold append. rewrite length_app. cbn. lia. Qed.

Section OneRecord.
Context `{PyRuntime}.

(** One stage of [_generate_insights] adds at most one insight. *)
Ltac insights_stage l lo hi :=
  let l' := fresh "l" in
  let Q := fresh "Q" in
  let B := fresh "B" in
  assert ((lo <= length l <= hi)%nat) as B
    by (repeat match goal with
               | |- context [length (if ?b then _ else _)] => destruct b
               end; rewrite ?length_append; cbn [length]; lia);
  remember l as l' eqn:Q; clear Q.

Lemma generate_insights_length (prop : record) (c : string) (score : Z)
    (v : spec_float) (age : Z) (o f : pyval) :
  (2 <= length (_generate_insights prop c score v age o f) <= 6)%nat.
Proof.
  unfold _generate_insights. cbv zeta. rewrite length_take.
  lazymatch goal with
  | |- context [if age <? 5 then append ?l _ else _] => insights_stage l 1%nat 1%nat
  end.
  lazymatch goal with
  | |- context [if eq_str o "LLC" then append ?l _ else _] =>
      insights_stage l 1%nat 2%nat
  end.
  lazymatch goal with
  | |- context [if eq_str f "High" then append ?l _ else _] =>
      insights_stage l 1%nat 3%nat
  end.
  lazymatch goal with
  | |- context [if eq_str ?band "Low" then append ?l _ else _] =>
      insights_stage l 1%nat 4%nat
  end.
  lazymatch goal with
  | |- context [if String.eqb c "Buy" then append ?l _ else _] =>
      insights_stage l 1%nat 5%nat
  end.
  repeat match goal with
         | |- context [length (if ?b then _ else _)] => destruct b
         end; rewrite ?length_append; lia.
Qed.

(** X14.  A returned analysis carries between two and six insights: the
    valuation and the classification always give one, the age, the
    ownership, the flood risk and the band at most one each. *)
Theorem insights_between_2_and_6 (prop : record) (r : analysis) :
  _rule_based_analysis prop = Ok r -> (2 <= length (insights r) <= 6)%nat.
Proof.
  intros E. apply rule_based_analysis_inv in E as (_ & _ & _ & _ & _ & _ & _ & ->).
  apply generate_insights_length.
Qed.

(** X15.  The analysis reads six fields of the record and nothing else:
    setting any other field, to any value, changes neither the result nor
    the exception raised. *)
Theorem analysis_reads_six_fields (prop : record) (k : string) (v : pyval) :
  ~ In k analysis_keys ->
  _rule_based_analysis (<[k := v]> prop) = _rule_based_analysis prop.
Proof.
  intros N.
  assert (forall key d, In key analysis_keys -> get (<[k := v]> prop) key d = get prop key d)
    as G.
  { intros key d I. unfold get. rewrite lookup_insert_ne; [reflexivity|].
    intros ->. by apply N. }
  assert (forall c score x age o f,
            _generate_insights (<[k := v]> prop) c score x age o f
            = _generate_insights prop c score x age o f) as GI.
  { intros. unfold _generate_insights.
    rewrite (G "valuation_band") by (cbn; tauto). reflexivity. }
  unfold _rule_based_analysis.
  rewrite (G "primary_valuation"), (G "ownership_type"), (G "property_age"),
    (G "flood_risk"), (G "property_address_city") by (cbn; tauto).
  destruct (py_float _) as [x|]; [|reflexivity].
  destruct (py_int _) as [age|]; [|reflexivity].
  cbn [mbind res_bind]. destruct (classify _) as [c conf].
  rewrite GI. reflexivity.
Qed.


(** X17.  An ownership type that is present and is not a string (a null,
    a number) stops the analysis: once the valuation and the age have
    converted, building the summary raises [AttributeError]. *)
Theorem ownership_must_be_string (prop : record) (o : pyval) :
  is_ok (py_float (py_or (get prop "primary_valuation" (PInt 0)) (PInt 0))) = true ->
  is_ok (py_int (py_or (get prop "property_age" (PInt 0)) (PInt 0))) = true ->
  prop !! "ownership_type" = Some o -> (forall s, o <> PStr s) ->
  _rule_based_analysis prop = Raise AttributeError.
Proof.
  intros Ev Ea Eo Ns. unfold _rule_based_analysis.
  destruct (py_float _) as [v|]; [|discriminate Ev].
  destruct (py_int _) as [age|]; [|discriminate Ea].
  cbn [mbind res_bind]. destruct (classify _) as [c conf].
  assert (get prop "ownership_type" (PStr "Unknown") = o) as ->
    by (unfold get; by rewrite Eo).
  unfold _generate_summary.
  destruct (if String.eqb c "Buy" then _ else _) as [sentiment action].
  destruct o as [| | | |s]; try reflexivity. by destruct (Ns s).
Qed.

End OneRecord.

Lemma insights_between_2_and_6_witness :
  exists r, _rule_based_analysis (H := Example.runtime) Example.best_case = Ok r /\
            (2 <= length (insights r) <= 6)%nat.
Proof.
  destruct (_rule_based_analysis (H := Example.runtime) Example.best_case)
    as [r|e] eqn:E; [|vm_compute in E; discriminate E].
  exists r. split; [reflexivity|].
  exact (insights_between_2_and_6 (H := Example.runtime) Example.best_case r E).
Defined.

Lemma analysis_reads_six_fields_witness :
  _rule_based_analysis (H := Example.runtime)
    (<["owner_phone" := PStr "555-0100"]> Example.best_case)
  = _rule_based_analysis (H := Example.runtime) Example.best_case.
Proof.
  apply (analysis_reads_six_fields (H := Example.runtime)).
  cbn. intros [E|[E|[E|[E|[E|[E|[]]]]]]]; discriminate E.
Defined.

Lemma ownership_must_be_string_witness :
  _rule_based_analysis (H := Example.runtime) (<["ownership_type" := PNone]> ∅)
  = Raise AttributeError.
Proof.
  apply (ownership_must_be_string (H := Example.runtime)
           (<["ownership_type" := PNone]> ∅) PNone);
    [reflexivity | reflexivity | reflexivity | discriminate].
Defined.

(* --------------------------------------------------------------------- *)
(** ** The analysis of a batch *)
(* --------------------------------------------------------------------- *)

Lemma mapM_Ok_inv {A B} (f : A -> res B) (l : list A) (k : list B) :
  mapM f l = Ok k -> Forall2 (fun a b => f a = Ok b) l k.
Proof.
  revert k. induction l as [|a l IH]; intros k E.
  - injection E as <-. constructor.
  - cbn [mapM] in E. apply bind_Ok_inv in E as (b & Eb & E).
    apply bind_Ok_inv in E as (k' & Ek & E). injection E as <-.
    constructor; [exact Eb | by apply IH].
Qed.

Lemma py_sum_from_Ok (l : list pyval) (acc : res number) (t : number) :
  foldl (fun acc v => a ← acc; b ← as_number v; num_add a b) acc l = Ok t ->
  Forall (fun v => is_number v = true) l.
Proof.
  revert acc. induction l as [|v l IH]; intros acc E; [constructor|].
  cbn [foldl] in E. constructor; [|by eapply IH].
  assert (exists a', (a ← acc; b ← as_number v; num_add a b) = Ok a') as [a' Ea'].
  { clear IH. revert E. generalize (a ← acc; b ← as_number v; num_add a b).
    induction l as [|w l IH]; intros r E; [by exists t|].
    cbn [foldl] in E. apply IH in E as [a' E].
    apply bind_Ok_inv in E as (a & -> & _). by exists a. }
  apply bind_Ok_inv in Ea' as (a & _ & Eb).
  apply bind_Ok_inv in Eb as (b & Eb & _).
  unfold is_number. by rewrite Eb.
Qed.

Lemma count_if_nonneg {A} (f : A -> bool) (l : list A) : 0 <= count_if f l.
Proof. unfold count_if, len. lia. Qed.

Lemma count_three {A} (f g h : A -> bool) (l : list A) :
  Forall (fun a => (f a = true /\ g a = false /\ h a = false) \/
                   (f a = false /\ g a = true /\ h a = false) \/
                   (f a = false /\ g a = false /\ h a = true)) l ->
  count_if f l + count_if g l + count_if h l = len l.
Proof.
  unfold count_if, len. induction 1 as [|a l Ha _ IH]; [reflexivity|].
  cbn [List.filter length].
  destruct Ha as [(-> & -> & ->) | [(-> & -> & ->) | (-> & -> & ->)]];
    cbn [length]; lia.
Qed.

Section Batch.
Context `{PyRuntime}.

Lemma analyze_property_classification (use_llm : bool) (p : record) (a : analysis) :
  analyze_property use_llm p = Ok a ->
  classification a = "Buy" \/ classification a = "Hold" \/ classification a = "Watch".
Proof.
  assert (forall q r, _rule_based_analysis q = Ok r ->
            classification r = "Buy" \/ classification r = "Hold"
            \/ classification r = "Watch") as R.
  { intros q r E. apply rule_based_analysis_inv in E as (_ & _ & _ & -> & _).
    unfold classify. destruct (_ >=? 70); [auto|]. destruct (_ >=? 50); auto. }
  unfold analyze_property, _llm_analysis. destruct use_llm; [|apply R].
  intros E. apply bind_Ok_inv in E as (r & Er & E). injection E as <-. cbn.
  by eapply R.
Qed.

(** X18.  The analysis of a batch that is not empty, when it returns,
    reports as many properties as it was given, under the classification
    "Mixed Portfolio", with an average valuation; and its counts of buy,
    hold and watch results add up to the number of properties. *)
Theorem analyze_batch_counts (use_llm : bool) (properties : list record)
    (b : batch_analysis) :
  properties <> [] -> analyze_batch use_llm properties = Ok b ->
  properties_analyzed b = len properties /\
  batch_classification b = "Mixed Portfolio" /\
  is_Some (average_valuation b) /\
  exists buy hold watch,
    breakdown b = Some (buy, hold, watch) /\
    0 <= buy /\ 0 <= hold /\ 0 <= watch /\
    buy + hold + watch = len properties.
Proof.
  intros N E. unfold analyze_batch in E.
  destruct properties as [|p0 rest]; [done|]. remember (p0 :: rest) as properties.
  apply bind_Ok_inv in E as (analyzed & Ea & E).
  apply bind_Ok_inv in E as (total & _ & E).
  apply bind_Ok_inv in E as (avg & _ & E).
  apply bind_Ok_inv in E as (s & _ & E).
  apply bind_Ok_inv in E as (cs & _ & E).
  apply bind_Ok_inv in E as (mc & _ & E).
  apply bind_Ok_inv in E as (ins & _ & E).
  injection E as <-. cbn.
  split; [reflexivity|]. split; [reflexivity|]. split; [eauto|].
  eexists _, _, _. split; [reflexivity|].
  repeat (split; [apply count_if_nonneg|]).
  apply mapM_Ok_inv in Ea.
  rewrite count_three.
  - unfold len. by rewrite (Forall2_length _ _ _ Ea).
  - clear -Ea. induction Ea as [|p a ps rs Epa _ IH]; constructor; [|exact IH].
    destruct (analyze_property_classification _ _ _ Epa) as [-> | [-> | ->]];
      cbn; auto.
Qed.

(** X19.  A batch holding a record whose [primary_valuation] is not a
    number (a null that is present, a string) never returns: the average
    valuation is summed over the raw fields and the sum raises, even
    where each record could be analysed on its own. *)
Theorem analyze_batch_needs_numbers (use_llm : bool) (properties : list record)
    (p : record) (b : batch_analysis) :
  In p properties ->
  is_number (get p "primary_valuation" (PInt 0)) = false ->
  analyze_batch use_llm properties <> Ok b.
Proof.
  intros I Np E. unfold analyze_batch in E.
  destruct properties as [|p0 rest]; [done|]. remember (p0 :: rest) as properties.
  apply bind_Ok_inv in E as (analyzed & _ & E).
  apply bind_Ok_inv in E as (total & Et & _).
  apply py_sum_from_Ok in Et. rewrite Forall_forall in Et.
  specialize (Et (get p "primary_valuation" (PInt 0))).
  rewrite Et in Np; [discriminate Np|].
  apply list_elem_of_In, in_map_iff. by exists p.
Qed.

End Batch.

Lemma analyze_batch_counts_witness :
  exists b, analyze_batch (H := Example.runtime) false [Example.best_case] = Ok b /\
            properties_analyzed b = 1 /\ batch_classification b = "Mixed Portfolio".
Proof.
  assert (is_ok (analyze_batch (H := Example.runtime) false [Example.best_case]) = true)
    as O by (vm_compute; reflexivity).
  destruct (analyze_batch (H := Example.runtime) false [Example.best_case])
    as [b|e] eqn:E; [|discriminate O].
  exists b. split; [reflexivity|].
  destruct (analyze_batch_counts (H := Example.runtime) false [Example.best_case] b)
    as (Hn & Hc & _); [discriminate | exact E |].
  split; assumption.
Defined.

Lemma analyze_batch_needs_numbers_witness :
  is_ok (_rule_based_analysis (H := Example.runtime) (<["primary_valuation" := PNone]> ∅))
  = true /\
  forall b, analyze_batch (H := Example.runtime) false
              [<["primary_valuation" := PNone]> ∅] <> Ok b.
Proof.
  split; [vm_compute; reflexivity|]. intros b.
  apply (analyze_batch_needs_numbers (H := Example.runtime) false
           [<["primary_valuation" := PNone]> ∅] (<["primary_valuation" := PNone]> ∅) b).
  - left. reflexivity.
  - reflexivity.
Defined.

(* --------------------------------------------------------------------- *)
(** ** Shaping by an input schema, and the endpoint *)
(* --------------------------------------------------------------------- *)

Lemma shape_field_supplied (signal shaped : record) (field : string) :
  shape_field signal shaped field
  = match supplied signal field with
    | Some v => <[field := v]> shaped
    | None => shaped
    end.
Proof.
  unfold shape_field, supplied. destruct (signal !! field); [reflexivity|].
  destruct (String.eqb_spec field "property_id") as [->|_]; [reflexivity|].
  destruct (String.eqb_spec field "address") as [->|_]; reflexivity.
Qed.

Lemma shape_fold_lookup (signal : record) (fields : list string)
    (shaped : record) (k : string) :
  foldl (shape_field signal) shaped fields !! k
  = if decide (k ∈ fields)
    then match supplied signal k with
         | Some v => Some v
         | None => shaped !! k
         end
    else shaped !! k.
Proof.
  revert shaped. induction fields as [|f fields IH]; intros shaped.
  - cbn. by rewrite decide_False by apply not_elem_of_nil.
  - cbn [foldl]. rewrite IH, shape_field_supplied.
    destruct (decide (k = f)) as [->|N].
    + rewrite (decide_True (P := f ∈ f :: fields)) by apply list_elem_of_here.
      destruct (supplied signal f) as [v|] eqn:S.
      * rewrite lookup_insert_eq. by case_decide.
      * by case_decide.
    + assert (match supplied signal f with
              | Some v => <[f := v]> shaped
              | None => shaped
              end !! k = shaped !! k) as ->.
      { destruct (supplied signal f); [by rewrite lookup_insert_ne | done]. }
      destruct (decide (k ∈ fields)) as [I|I].
      * by rewrite decide_True by (by apply list_elem_of_further).
      * rewrite decide_False; [done|].
        intros [?|?]%elem_of_cons; done.
Qed.

(** X20.  Under an input schema the shaped signal holds the fields of the
    schema that the signal can supply, and nothing else: a field of the
    signal that the schema does not name is dropped; a named field carries
    the signal's value; and [property_id] and [address] fall back on
    [attom_id] and [property_address_full] when the signal lacks them. *)
Theorem filter_signal_by_schema (input_schema : list string) (signal : record)
    (k : string) :
  input_schema <> [] ->
  _filter_signal input_schema signal !! k
  = if decide (k ∈ input_schema) then supplied signal k else None.
Proof.
  intros N. unfold _filter_signal.
  destruct input_schema as [|f fields]; [done|].
  rewrite shape_fold_lookup, lookup_empty.
  case_decide; [|reflexivity]. by destruct (supplied signal k).
Qed.

Lemma filter_signal_by_schema_witness :
  _filter_signal ["property_id"; "address"]
    (<["attom_id" := PStr "A1"]> (<["owner_phone" := PStr "555-0100"]> ∅))
    !! "property_id"
  = Some (PStr "A1").
Proof.
  rewrite (filter_signal_by_schema ["property_id"; "address"]) by discriminate.
  reflexivity.
Defined.

Lemma assoc_In (name : string) (d : list (string * string)) (url : string) :
  assoc name d = Some url -> In (name, url) d.
Proof.
  induction d as [|[k u] d IH]; cbn [assoc]; [discriminate|].
  destruct (String.eqb_spec k name) as [->|_].
  - intros [= ->]. by left.
  - intros E. right. by apply IH.
Qed.

(** X21.  The endpoint resolved is always a URL of the configuration, or
    the local development URL when the configuration has no endpoint at
    all; a name that is configured selects its own URL, and without such a
    name the endpoint "scoutgpt_analysis" is preferred to the first
    one. *)
Theorem resolve_endpoint_spec (endpoints : list (string * string))
    (name : option string) :
  (forall n url, name = Some n -> n <> "" -> assoc n endpoints = Some url ->
                 _resolve_endpoint endpoints name = url) /\
  (forall url, (name = None \/ name = Some ""
                \/ exists n, name = Some n /\ assoc n endpoints = None) ->
               assoc DEFAULT_ENDPOINT_NAME endpoints = Some url ->
               _resolve_endpoint endpoints name = url) /\
  (endpoints = [] ->
   _resolve_endpoint endpoints name = "http://localhost:8001/api/analyze") /\
  (endpoints <> [] ->
   exists k, In (k, _resolve_endpoint endpoints name) endpoints).
Proof.
  unfold _resolve_endpoint. split; [|split; [|split]].
  - intros n url -> N A. destruct (String.eqb_spec n ""); [done|]. by rewrite A.
  - intros url C D. rewrite D.
    destruct C as [-> | [-> | (n & -> & A)]]; try reflexivity.
    destruct (String.eqb n ""); [reflexivity|]. by rewrite A.
  - intros ->. destruct name as [n|]; [|reflexivity].
    destruct (String.eqb n ""); reflexivity.
  - intros N.
    assert (exists k, In (k, match assoc DEFAULT_ENDPOINT_NAME endpoints with
                             | Some url => url
                             | None => match endpoints with
                                       | (_, url) :: _ => url
                                       | [] => "http://localhost:8001/api/analyze"
                                       end
                             end) endpoints) as Dflt.
    { destruct (assoc DEFAULT_ENDPOINT_NAME endpoints) as [url|] eqn:A.
      - exists DEFAULT_ENDPOINT_NAME. by apply assoc_In.
      - destruct endpoints as [|[k url] rest]; [done|]. exists k. by left. }
    destruct name as [n|]; [|exact Dflt].
    destruct (String.eqb n ""); [exact Dflt|].
    destruct (assoc n endpoints) as [url|] eqn:A; [|exact Dflt].
    exists n. by apply assoc_In.
Qed.

Lemma resolve_endpoint_spec_witness :
  _resolve_endpoint [("batch", "http://a/batch"); ("scoutgpt_analysis", "http://a/one")]
    (Some "batch") = "http://a/batch" /\
  _resolve_endpoint [("batch", "http://a/batch"); ("scoutgpt_analysis", "http://a/one")]
    (Some "other") = "http://a/one".
Proof.
  pose proof (resolve_endpoint_spec
                [("batch", "http://a/batch"); ("scoutgpt_analysis", "http://a/one")]
                (Some "batch")) as (P1 & _).
  pose proof (resolve_endpoint_spec
                [("batch", "http://a/batch"); ("scoutgpt_analysis", "http://a/one")]
                (Some "other")) as (_ & P2 & _).
  split.
  - apply (P1 "batch"); [reflexivity | discriminate | reflexivity].
  - apply P2; [|reflexivity]. right. right. exists "other". split; reflexivity.
Defined.

(* --------------------------------------------------------------------- *)
(** ** When the analysis returns *)
(* --------------------------------------------------------------------- *)

Section Returns.
Context `{PyRuntime}.

Lemma generate_summary_needs_string (prop : record) (c : string) (score : Z)
    (v : spec_float) (age : Z) (o f city : pyval) (s : string) :
  _generate_summary prop c score v age o f city = Ok s -> exists t, o = PStr t.
Proof.
  unfold _generate_summary.
  destruct (if String.eqb c "Buy" then _ else _) as [sentiment action].
  intros E. apply bind_Ok_inv in E as (lo & El & _).
  destruct o; try discriminate El. by eexists.
Qed.

(** X22.  The rule-based analysis returns exactly when the valuation
    converts to a float, the age converts to an integer and the ownership
    type is a string (the default "Unknown" when the field is absent); in
    every other case it raises. *)
Theorem analysis_returns_iff (prop : record) :
  is_ok (_rule_based_analysis prop) = true <->
  is_ok (py_float (py_or (get prop "primary_valuation" (PInt 0)) (PInt 0))) = true /\
  is_ok (py_int (py_or (get prop "property_age" (PInt 0)) (PInt 0))) = true /\
  exists o, get prop "ownership_type" (PStr "Unknown") = PStr o.
Proof.
  split.
  - destruct (_rule_based_analysis prop) as [r|] eqn:E; [intros _ | discriminate].
    apply rule_based_analysis_inv in E as (Ev & Ea & _ & _ & _ & _ & Es & _).
    rewrite Ev, Ea. repeat split.
    by eapply generate_summary_needs_string.
  - intros (Ev & Ea & o & Eo).
    destruct (py_float _) as [v|] eqn:Fv; [|discriminate Ev].
    destruct (py_int _) as [age|] eqn:Fa; [|discriminate Ea].
    destruct (rule_based_analysis_ok prop v age o Fv Fa Eo) as (r & -> & _).
    reflexivity.
Qed.

End Returns.

(* --------------------------------------------------------------------- *)
(** ** Shaping twice *)
(* --------------------------------------------------------------------- *)

(** X23.  Without an input schema, shaping is a projection: it never adds
    a key to the signal, and shaping a shaped signal changes nothing. *)
Theorem filter_signal_projection (signal : record) :
  _filter_signal [] (_filter_signal [] signal) = _filter_signal [] signal /\
  dom (_filter_signal [] signal) ⊆ dom signal.
Proof.
  split.
  - apply map_eq. intros k. rewrite !filter_signal_lookup. by case_decide.
  - intros k D. apply elem_of_dom in D as [v D]. apply elem_of_dom.
    rewrite filter_signal_lookup in D. case_decide; [eauto | discriminate D].
Qed.
